(** * The phase chain of [autogen_custom_problems.py]

    A shallow embedding of [src/autogen/autogen_custom_problems.py]:
    the scenario table, the workflow object with its [outputs]
    dictionary, the methods [run], [execute_phase] and [print_summary],
    and [main] with its exception handler.

    Text is modelled by [string]; a character stands for a code point
    below 256.  On that range Python's [str.lower] and [str.strip] act
    character by character and are transcribed exactly.  The collaborators
    the program calls into (the completion client, the clock, standard
    input, the [Config] module) are parameters of the development. *)

From Stdlib Require Import String Ascii List ZArith NArith Lia Bool Arith.
From Stdlib Require Import DecimalString.
Import ListNotations.
Open Scope list_scope.
Open Scope string_scope.

(* ================================================================== *)
(** ** Strings as Python uses them *)

Module PyStr.

Fixpoint smap (f : ascii -> ascii) (s : string) : string :=
  match s with
  | EmptyString => EmptyString
  | String c r => String (f c) (smap f r)
  end.

Definition in_range (lo hi n : N) : bool := ((lo <=? n) && (n <=? hi))%N.

(** [str.lower] on one code point below 256: A-Z, and the capital
    letters U+00C0..U+00DE except the multiplication sign U+00D7. *)
Definition lower_char (c : ascii) : ascii :=
  let n := N_of_ascii c in
  if in_range 65 90 n || (in_range 192 222 n && negb (n =? 215)%N)
  then ascii_of_N (n + 32) else c.

Definition lower (s : string) : string := smap lower_char s.

(** [str.upper] on one code point.  It agrees with Python on every code
    point below 256 except U+00B5, U+00DF and U+00FF, whose upper case
    lies outside the range; the program applies it to table text only. *)
Definition upper_char (c : ascii) : ascii :=
  let n := N_of_ascii c in
  if in_range 97 122 n || (in_range 224 254 n && negb (n =? 247)%N)
  then ascii_of_N (n - 32) else c.

Definition upper (s : string) : string := smap upper_char s.

(** [s.replace(old, new)] for one-character [old] and [new]. *)
Definition replace (old new : ascii) (s : string) : string :=
  smap (fun c => if Ascii.eqb c old then new else c) s.

(** The characters [str.strip] removes, below 256. *)
Definition is_space (c : ascii) : bool :=
  let n := N_of_ascii c in
  in_range 9 13 n || in_range 28 32 n || (n =? 133)%N || (n =? 160)%N.

Fixpoint lstrip (s : string) : string :=
  match s with
  | EmptyString => EmptyString
  | String c r => if is_space c then lstrip r else s
  end.

Fixpoint rstrip (s : string) : string :=
  match s with
  | EmptyString => EmptyString
  | String c r =>
      match rstrip r with
      | EmptyString => if is_space c then EmptyString else String c EmptyString
      | r' => String c r'
      end
  end.

Definition strip (s : string) : string := rstrip (lstrip s).

(** [s * n] *)
Fixpoint rep (s : string) (n : nat) : string :=
  match n with
  | O => EmptyString
  | S k => s ++ rep s k
  end.

(** [sep.join(l)] *)
Fixpoint join (sep : string) (l : list string) : string :=
  match l with
  | [] => EmptyString
  | [x] => x
  | x :: r => x ++ sep ++ join sep r
  end.

(** [str(n)] for a natural number. *)
Definition str_nat (n : nat) : string := NilZero.string_of_uint (Nat.to_uint n).

(** Truth value of a string: non-empty. *)
Definition truthy (s : string) : bool :=
  match s with EmptyString => false | _ => true end.

(** [p in s]: [p] occurs in [s] as a contiguous piece. *)
Fixpoint occurs (p s : string) : bool :=
  prefix p s ||
  match s with
  | EmptyString => false
  | String _ r => occurs p r
  end.

Definition newline : ascii := ascii_of_N 10.

(** The one-character string holding a line feed. *)
Definition NL : string := String newline EmptyString.

Fixpoint has_char (c : ascii) (s : string) : bool :=
  match s with
  | EmptyString => false
  | String d r => Ascii.eqb d c || has_char c r
  end.

End PyStr.
Import PyStr.

(* ================================================================== *)
(** ** Python dictionaries with string keys

    Insertion order is kept: assigning to a present key replaces the
    value where it stands, assigning to a new key appends. *)

Module PyDict.

Definition dict : Type := list (string * string).

Fixpoint get (k : string) (d : dict) : option string :=
  match d with
  | [] => None
  | (k', v) :: r => if String.eqb k' k then Some v else get k r
  end.

(** [k in d] *)
Definition mem (k : string) (d : dict) : bool :=
  match get k d with Some _ => true | None => false end.

(** [d[k] = v] *)
Fixpoint set (k v : string) (d : dict) : dict :=
  match d with
  | [] => [(k, v)]
  | (k', v') :: r =>
      if String.eqb k' k then (k', v) :: r else (k', v') :: set k v r
  end.

Definition keys (d : dict) : list string := map fst d.

End PyDict.

(* ================================================================== *)
(** ** The data model *)

Record phase : Type := {
  name : string;
  agent : string;
  prompt : string
}.

Record scenario_t : Type := {
  scenario_name : string;
  phases : list phase
}.

Definition SCENARIOS : list (string * scenario_t) :=
  [ ("conference",
     {| scenario_name := "3-Day Conference Agenda Planning";
        phases :=
          [ {| name := "Research & Requirements";
               agent := "Conference Researcher";
               prompt := "You are a conference planning expert. Research and identify key requirements for a 3-day conference including: target audience, main themes, session types, networking opportunities, and logistical needs. Provide a comprehensive overview in 150 words." |};
            {| name := "Agenda Structure";
               agent := "Agenda Designer";
               prompt := "You are an agenda design specialist. Based on the research, create a structured 3-day conference agenda structure including: daily themes, session timing, breaks, keynote slots, and parallel tracks. Provide a day-by-day framework in 150 words." |};
            {| name := "Content Planning";
               agent := "Content Strategist";
               prompt := "You are a content strategist. Based on the agenda structure, plan specific session topics, speaker recommendations, workshop ideas, and interactive activities for each day. Make it engaging and valuable in 150 words." |};
            {| name := "Final Review";
               agent := "Conference Reviewer";
               prompt := "You are a conference quality reviewer. Review the complete conference plan and provide 3 key recommendations for success, potential improvements, and critical success factors. Be concise in 150 words." |} ] |});
    ("marketing",
     {| scenario_name := "Marketing Strategy Design";
        phases :=
          [ {| name := "Market Analysis";
               agent := "Market Analyst";
               prompt := "You are a market analyst. Analyze the target market for the product including: customer segments, competitive landscape, market trends, and opportunities. Provide insights in 150 words." |};
            {| name := "Strategy Development";
               agent := "Marketing Strategist";
               prompt := "You are a marketing strategist. Based on the market analysis, develop a comprehensive marketing strategy including: positioning, key messages, target channels, and campaign approach. Be strategic in 150 words." |};
            {| name := "Tactical Planning";
               agent := "Marketing Tactician";
               prompt := "You are a marketing tactician. Based on the strategy, create specific tactical plans including: content types, social media approach, advertising channels, and promotional activities. Be actionable in 150 words." |};
            {| name := "Success Metrics";
               agent := "Marketing Analyst";
               prompt := "You are a marketing analyst. Define success metrics and KPIs for the marketing strategy including: measurement methods, target goals, and evaluation criteria. Be specific in 150 words." |} ] |});
    ("research",
     {| scenario_name := "Research Paper Outline";
        phases :=
          [ {| name := "Topic Research";
               agent := "Research Specialist";
               prompt := "You are a research specialist. Research and identify the research topic scope, key questions, existing literature gaps, and significance of the research area. Provide a comprehensive overview in 150 words." |};
            {| name := "Outline Structure";
               agent := "Academic Writer";
               prompt := "You are an academic writer. Based on the research, create a structured research paper outline including: abstract, introduction, literature review, methodology, results, discussion, and conclusion sections. Provide a detailed framework in 150 words." |};
            {| name := "Content Planning";
               agent := "Content Planner";
               prompt := "You are a content planner. Based on the outline, plan specific content for each section including: key points, data requirements, analysis methods, and expected contributions. Be detailed in 150 words." |};
            {| name := "Review & Refinement";
               agent := "Academic Reviewer";
               prompt := "You are an academic reviewer. Review the research paper outline and provide 3 key recommendations for improvement, potential gaps, and academic rigor enhancements. Be constructive in 150 words." |} ] |});
    ("architecture",
     {| scenario_name := "Software Architecture Planning";
        phases :=
          [ {| name := "Requirements Analysis";
               agent := "Systems Analyst";
               prompt := "You are a systems analyst. Analyze the software requirements including: functional requirements, non-functional requirements, scalability needs, and technical constraints. Provide a comprehensive analysis in 150 words." |};
            {| name := "Architecture Design";
               agent := "Software Architect";
               prompt := "You are a software architect. Based on the requirements, design the software architecture including: system components, technology stack, architectural patterns, and system interactions. Provide a high-level design in 150 words." |};
            {| name := "Technical Planning";
               agent := "Technical Lead";
               prompt := "You are a technical lead. Based on the architecture, plan technical implementation details including: database design, API structure, security measures, and deployment strategy. Be technical in 150 words." |};
            {| name := "Architecture Review";
               agent := "Architecture Reviewer";
               prompt := "You are an architecture reviewer. Review the software architecture plan and provide 3 key recommendations for improvement, potential risks, and best practices. Be critical in 150 words." |} ] |}) ].

(** [SCENARIOS[k]] and [k in SCENARIOS] *)
Fixpoint scenario_lookup (k : string) (t : list (string * scenario_t))
  : option scenario_t :=
  match t with
  | [] => None
  | (k', s) :: r => if String.eqb k' k then Some s else scenario_lookup k r
  end.

(** The storage key of a phase: [name.lower().replace(' ', '_')], the
    expression the source writes at each place a key is needed. *)
Definition phase_key (nm : string) : string := replace " " "_" (lower nm).

(* ================================================================== *)
(** ** Time stamps *)

Record datetime : Type := {
  year : nat; month : nat; day : nat;
  hour : nat; minute : nat; second : nat;
  microsecond : nat
}.

Definition digit (n : nat) : ascii := ascii_of_nat (48 + n mod 10).

Definition pad2 (n : nat) : string :=
  String (digit (n / 10)) (String (digit n) EmptyString).

(** [%Y] for the years 1000..9999 (the clock's years). *)
Definition pad4 (n : nat) : string :=
  String (digit (n / 1000)) (String (digit (n / 100)) (pad2 n)).

(** [t.strftime('%Y-%m-%d %H:%M:%S')] *)
Definition strftime_long (t : datetime) : string :=
  pad4 (year t) ++ "-" ++ pad2 (month t) ++ "-" ++ pad2 (day t) ++ " " ++
  pad2 (hour t) ++ ":" ++ pad2 (minute t) ++ ":" ++ pad2 (second t).

(** [t.strftime('%Y%m%d_%H%M%S')] *)
Definition strftime_compact (t : datetime) : string :=
  pad4 (year t) ++ pad2 (month t) ++ pad2 (day t) ++ "_" ++
  pad2 (hour t) ++ pad2 (minute t) ++ pad2 (second t).

(** The name of the result file, [f"Exercise_4_{scenario_type}_{timestamp}.txt"]. *)
Definition output_file_name (scenario_type : string) (t : datetime) : string :=
  "Exercise_4_" ++ scenario_type ++ "_" ++ strftime_compact t ++ ".txt".

(** The values a reading of the clock takes (years of four digits). *)
Definition valid_datetime (t : datetime) : Prop :=
  1000 <= year t < 100 * 100 /\ 1 <= month t <= 12 /\ 1 <= day t <= 31 /\
  hour t < 24 /\ minute t < 60 /\ second t < 60 /\ microsecond t < 1000 * 1000.

(** Two readings that agree down to the second. *)
Definition same_second (t1 t2 : datetime) : Prop :=
  year t1 = year t2 /\ month t1 = month t2 /\ day t1 = day t2 /\
  hour t1 = hour t2 /\ minute t1 = minute t2 /\ second t1 = second t2.

(* ================================================================== *)
(** ** Collaborators, exceptions and the world *)

(** The settings the program reads from the [config] module.  They are
    passed on and never inspected; the temperature, a fraction, is kept
    as numerator and denominator. *)
Record ConfigT : Type := {
  validate_setup : bool;
  API_KEY : string;
  API_BASE : string;
  OPENAI_MODEL : string;
  AGENT_TEMPERATURE : Z * positive;
  AGENT_MAX_TOKENS : Z
}.

Record message : Type := { role : string; content : string }.

Record request : Type := {
  req_model : string;
  req_temperature : Z * positive;
  req_max_tokens : Z;
  req_messages : list message
}.

Inductive exn : Type :=
| ClientError (msg : string)
| KeyError (key : string)
| EOFError.

(** [str(e)] *)
Definition str_exn (e : exn) : string :=
  match e with
  | ClientError msg => msg
  | KeyError key => "'" ++ key ++ "'"
  | EOFError => "EOF when reading a line"
  end.

Record world : Type := {
  stdout : list string;        (* every piece of text written, oldest first *)
  stderr : list exn;           (* the exceptions whose traceback was printed *)
  requests : list request;     (* completion requests sent, oldest first *)
  files : PyDict.dict;         (* path to content *)
  clock_reads : nat;
  stdin : list string          (* the lines still to be read *)
}.

(** [l.append(x)], also used for text written to a stream. *)
Definition append_item {A} (l : list A) (x : A) : list A := (l ++ [x])%list.

Definition world0 (lines : list string) : world :=
  {| stdout := []; stderr := []; requests := []; files := [];
     clock_reads := 0; stdin := lines |}.

(** The workflow object; its [client] attribute is the completion
    collaborator below. *)
Record workflow : Type := {
  outputs : PyDict.dict;
  model : string;
  scenario : scenario_t;
  scenario_type : string;
  topic : string
}.

Definition set_outputs (d : PyDict.dict) (self : workflow) : workflow :=
  {| outputs := d; model := model self; scenario := scenario self;
     scenario_type := scenario_type self; topic := topic self |}.

(* ================================================================== *)
(** ** A state monad with Python's two ways of leaving a block *)

Inductive outcome (A : Type) : Type :=
| Normal (a : A)
| Raised (e : exn)            (* an [Exception] is propagating *)
| SystemExit (code : Z).      (* [exit(code)]; not an [Exception] *)
Arguments Normal {A} a.
Arguments Raised {A} e.
Arguments SystemExit {A} code.

Definition M (S A : Type) : Type := S -> S * outcome A.

Definition ret {S A} (a : A) : M S A := fun s => (s, Normal a).

Definition bind {S A B} (m : M S A) (k : A -> M S B) : M S B :=
  fun s =>
    match m s with
    | (s', Normal a) => k a s'
    | (s', Raised e) => (s', Raised e)
    | (s', SystemExit c) => (s', SystemExit c)
    end.

Definition raise {S A} (e : exn) : M S A := fun s => (s, Raised e).
Definition exit {S A} (code : Z) : M S A := fun s => (s, SystemExit code).

(** [try: body  except Exception as e: handler e] *)
Definition try_except {S A} (body : M S A) (handler : exn -> M S A) : M S A :=
  fun s =>
    match body s with
    | (s', Raised e) => handler e s'
    | r => r
    end.

Declare Scope py_scope.
Delimit Scope py_scope with py.
Notation "x <- m ;; k" := (bind m (fun x => k))
  (at level 61, m at next level, right associativity) : py_scope.
Notation "m ;; k" := (bind m (fun _ => k))
  (at level 61, right associativity) : py_scope.
Open Scope py_scope.

(** [for i, x in enumerate(l, i0): body i x] *)
Fixpoint for_enumerate {St A} (body : nat -> A -> M St unit) (i0 : nat) (l : list A)
  : M St unit :=
  match l with
  | [] => ret tt
  | x :: r => body i0 x ;; for_enumerate body (S i0) r
  end.

(** A method runs on the world and the object it is called on. *)
Definition st : Type := world * workflow.

Definition liftW {A} (m : M world A) : M st A :=
  fun s => let '(w', r) := m (fst s) in ((w', snd s), r).

(** Calling a method of a local object from a function. *)
Definition call_on {A} (self : workflow) (m : M st A) : M world A :=
  fun w => let '(s', r) := m (w, self) in (fst s', r).

Definition get_self : M st workflow := fun s => (s, Normal (snd s)).

Definition with_stdout (f : list string -> list string) (w : world) : world :=
  {| stdout := f (stdout w); stderr := stderr w; requests := requests w;
     files := files w; clock_reads := clock_reads w; stdin := stdin w |}.

Definition with_files (f : PyDict.dict -> PyDict.dict) (w : world) : world :=
  {| stdout := stdout w; stderr := stderr w; requests := requests w;
     files := f (files w); clock_reads := clock_reads w; stdin := stdin w |}.

(** [print(s)] *)
Definition print (s : string) : M world unit :=
  fun w => (with_stdout (fun o => append_item o (s ++ NL)) w, Normal tt).

(** [input(p)]: writes the prompt, reads one line. *)
Definition input (p : string) : M world string :=
  fun w =>
    let w1 := with_stdout (fun o => append_item o p) w in
    match stdin w1 with
    | [] => (w1, Raised EOFError)
    | l :: r =>
        ({| stdout := stdout w1; stderr := stderr w1; requests := requests w1;
            files := files w1; clock_reads := clock_reads w1; stdin := r |},
         Normal l)
    end.

(** [traceback.print_exc()] *)
Definition print_exc (e : exn) : M world unit :=
  fun w =>
    ({| stdout := stdout w; stderr := append_item (stderr w) e; requests := requests w;
        files := files w; clock_reads := clock_reads w; stdin := stdin w |},
     Normal tt).

(** [open(path, 'w')] truncates; [f.write(s)] appends. *)
Definition open_w (path : string) : M world unit :=
  fun w => (with_files (PyDict.set path "") w, Normal tt).

Definition fwrite (path s : string) : M world unit :=
  fun w =>
    let old := match PyDict.get path (files w) with Some c => c | None => "" end in
    (with_files (PyDict.set path (old ++ s)) w, Normal tt).

(** [self.outputs[k]] *)
Definition getitem (k : string) : M st string :=
  fun s =>
    match PyDict.get k (outputs (snd s)) with
    | Some v => (s, Normal v)
    | None => (s, Raised (KeyError k))
    end.

(** [self.outputs[k] = v] *)
Definition setitem (k v : string) : M st unit :=
  fun s => ((fst s, set_outputs (PyDict.set k v (outputs (snd s))) (snd s)), Normal tt).

(** The text that opens the topic line. *)
Definition topic_marker : string := "Topic/Product: ".

(* ================================================================== *)
(** ** Sample collaborators, for the examples *)

Definition sample_config : ConfigT :=
  {| validate_setup := true;
     API_KEY := "sk-test";
     API_BASE := "https://api.openai.com/v1";
     OPENAI_MODEL := "gpt-4o-mini";
     AGENT_TEMPERATURE := (7%Z, 10%positive);
     AGENT_MAX_TOKENS := 500%Z |}.

Definition invalid_config : ConfigT :=
  {| validate_setup := false;
     API_KEY := "";
     API_BASE := "https://api.openai.com/v1";
     OPENAI_MODEL := "gpt-4o-mini";
     AGENT_TEMPERATURE := (7%Z, 10%positive);
     AGENT_MAX_TOKENS := 500%Z |}.

(** A client that answers every call. *)
Definition answering_client (n : nat) (req : request) : exn + string :=
  inr ("answer " ++ str_nat n).

(** A client whose call number [k] (counted from 0) fails. *)
Definition failing_client (k : nat) (n : nat) (req : request) : exn + string :=
  if Nat.eqb n k then inl (ClientError "Connection error.")
  else inr ("answer " ++ str_nat n).

(** A client that answers with a line of the shape of the topic line. *)
Definition echoing_client (n : nat) (req : request) : exn + string :=
  inr "Topic/Product: Smart Home Assistant".

(** A clock that stands at 2025-11-03 14:30:15 and counts its readings
    in the microseconds. *)
Definition sample_clock (n : nat) : datetime :=
  {| year := 2025; month := 11; day := 3;
     hour := 14; minute := 30; second := 15; microsecond := n |}.

(** The scenario the examples run. *)
Definition marketing : scenario_t :=
  match scenario_lookup "marketing" SCENARIOS with
  | Some sc => sc
  | None => {| scenario_name := ""; phases := [] |}
  end.

Definition no_phase : phase := {| name := ""; agent := ""; prompt := "" |}.

Definition no_request : request :=
  {| req_model := ""; req_temperature := (0%Z, 1%positive);
     req_max_tokens := 0%Z; req_messages := [] |}.

(** The command line [autogen_custom_problems.py marketing <topic>]. *)
Definition sample_argv (tp : string) : list string :=
  ["autogen_custom_problems.py"; "marketing"; tp].

(* ================================================================== *)
(** ** The program *)

Section Program.

(** The [config] module's settings. *)
Variable Config : ConfigT.

(** The completion collaborator: what the [n]-th call (counted from 0)
    answers to a request, an error or the text of the first choice. *)
Variable client : nat -> request -> exn + string.

(** The clock: what the [n]-th reading of [datetime.now()] returns. *)
Variable now : nat -> datetime.

(** [self.client.chat.completions.create(...)] followed by
    [.choices[0].message.content] *)
Definition create (req : request) : M world string :=
  fun w =>
    let w' := {| stdout := stdout w; stderr := stderr w;
                 requests := append_item (requests w) req;
                 files := files w; clock_reads := clock_reads w;
                 stdin := stdin w |} in
    match client (length (requests w)) req with
    | inl e => (w', Raised e)
    | inr text => (w', Normal text)
    end.

(** [datetime.now()] *)
Definition datetime_now : M world datetime :=
  fun w =>
    ({| stdout := stdout w; stderr := stderr w; requests := requests w;
        files := files w; clock_reads := S (clock_reads w); stdin := stdin w |},
     Normal (now (clock_reads w))).

(** One turn of the loop that collects the earlier phases' results. *)
Definition add_context (d : PyDict.dict) (context : string) (prev_phase : phase)
  : string :=
  let phase_key := phase_key (name prev_phase) in
  match PyDict.get phase_key d with
  | Some out => context ++ NL ++ name prev_phase ++ ":" ++ NL ++ out ++ NL
  | None => context
  end.

Definition build_context (self : workflow) (phase_num : nat) : string :=
  fold_left (add_context (outputs self))
            (firstn (phase_num - 1) (phases (scenario self)))
            (NL ++ NL ++ "Previous Phase Results:" ++ NL).

(** The user message [execute_phase] builds before it calls the client. *)
Definition build_user_message (self : workflow) (phase_num : nat)
           (phase_config : phase) : string :=
  let user_message := prompt phase_config in
  let user_message :=
    if Nat.ltb 1 phase_num
    then build_context self phase_num ++ NL ++ user_message
    else user_message in
  if truthy (topic self)
  then "Topic/Product: " ++ topic self ++ NL ++ NL ++ user_message
  else user_message.

Definition phase_request (self : workflow) (phase_num : nat)
           (phase_config : phase) : request :=
  {| req_model := model self;
     req_temperature := AGENT_TEMPERATURE Config;
     req_max_tokens := AGENT_MAX_TOKENS Config;
     req_messages :=
       [ {| role := "system";
            content := "You are " ++ agent phase_config ++ ". " ++ prompt phase_config |};
         {| role := "user";
            content := build_user_message self phase_num phase_config |} ] |}.

Definition execute_phase (phase_num : nat) (phase_config : phase) : M st unit :=
  liftW (print (NL ++ rep "=" 80)) ;;
  liftW (print ("PHASE " ++ str_nat phase_num ++ ": " ++ upper (name phase_config))) ;;
  liftW (print (rep "=" 80)) ;;
  liftW (print ("[" ++ agent phase_config ++ " is working...]")) ;;
  self <- get_self ;;
  response <- liftW (create (phase_request self phase_num phase_config)) ;;
  let phase_key := phase_key (name phase_config) in
  setitem phase_key response ;;
  liftW (print (NL ++ "[" ++ agent phase_config ++ " Output]")) ;;
  out <- getitem phase_key ;;
  liftW (print out).

(** [print_summary], first part: the report on standard output. *)
Definition print_report : M st unit :=
  self <- get_self ;;
  let sc := scenario self in
  liftW (print (NL ++ rep "=" 80)) ;;
  liftW (print "FINAL SUMMARY") ;;
  liftW (print (rep "=" 80)) ;;
  liftW (print (NL ++ "This workflow demonstrated a " ++ str_nat (length (phases sc))
                   ++ "-agent collaboration for " ++ scenario_name sc ++ ":" ++ NL)) ;;
  for_enumerate
    (fun i phase =>
       liftW (print (str_nat i ++ ". " ++ agent phase ++ " - " ++ name phase)))
    1 (phases sc) ;;
  liftW (print (NL ++ "Each agent received context from the previous agent's output,"
                   ++ NL ++ "demonstrating the sequential workflow pattern of AutoGen."
                   ++ NL)) ;;
  liftW (print (NL ++ rep "=" 80)) ;;
  liftW (print "FULL RESULTS - ALL PHASES") ;;
  liftW (print (rep "=" 80)) ;;
  for_enumerate
    (fun i phase =>
       let phase_key := phase_key (name phase) in
       liftW (print (NL ++ rep "-" 80)) ;;
       liftW (print ("PHASE " ++ str_nat i ++ ": " ++ upper (name phase) ++ " (Full Output)")) ;;
       liftW (print (rep "-" 80)) ;;
       out <- getitem phase_key ;;
       liftW (print out))
    1 (phases sc).

(** [print_summary], second part: what is written to [output_file] once
    it is open. *)
Definition write_results (output_file : string) : M st unit :=
  self <- get_self ;;
  let sc := scenario self in
  liftW (fwrite output_file (rep "=" 80 ++ NL)) ;;
  liftW (fwrite output_file ("AUTOGEN " ++ upper (scenario_name sc) ++ " - FULL RESULTS" ++ NL)) ;;
  liftW (fwrite output_file (rep "=" 80 ++ NL)) ;;
  t1 <- liftW datetime_now ;;
  liftW (fwrite output_file ("Generated: " ++ strftime_long t1 ++ NL)) ;;
  liftW (fwrite output_file ("Model: " ++ model self ++ NL)) ;;
  (if truthy (topic self)
   then liftW (fwrite output_file ("Topic: " ++ topic self ++ NL))
   else ret tt) ;;
  liftW (fwrite output_file NL) ;;
  for_enumerate
    (fun i phase =>
       let phase_key := phase_key (name phase) in
       liftW (fwrite output_file (NL ++ rep "-" 80 ++ NL)) ;;
       liftW (fwrite output_file ("PHASE " ++ str_nat i ++ ": " ++ upper (name phase) ++ NL)) ;;
       liftW (fwrite output_file (rep "-" 80 ++ NL)) ;;
       out <- getitem phase_key ;;
       liftW (fwrite output_file (out ++ NL)))
    1 (phases sc).

(** [print_summary], the end: the file name is announced. *)
Definition print_saved (output_file : string) : M st unit :=
  liftW (print (NL ++ "💾 Full results saved to: " ++ output_file)) ;;
  t2 <- liftW datetime_now ;;
  liftW (print (NL ++ "End Time: " ++ strftime_long t2)) ;;
  liftW (print (rep "=" 80)).

Definition print_summary : M st unit :=
  print_report ;;
  self <- get_self ;;
  t <- liftW datetime_now ;;
  let output_file := output_file_name (scenario_type self) t in
  liftW (open_w output_file) ;;
  write_results output_file ;;
  print_saved output_file.

(** The loop of [run], without the banner before it and the summary
    after it. *)
Definition run_phases (ps : list phase) : M st unit :=
  for_enumerate execute_phase 1 ps.

(** What [run] prints before the loop. *)
Definition run_banner : M st unit :=
  self <- get_self ;;
  liftW (print (NL ++ rep "=" 80)) ;;
  liftW (print ("AUTOGEN " ++ upper (scenario_name (scenario self)) ++ " WORKFLOW")) ;;
  liftW (print (rep "=" 80)) ;;
  (if truthy (topic self)
   then liftW (print ("Topic: " ++ topic self))
   else ret tt) ;;
  t <- liftW datetime_now ;;
  liftW (print ("Start Time: " ++ strftime_long t)) ;;
  liftW (print ("Model: " ++ model self ++ NL)).

Definition run : M st unit :=
  run_banner ;;
  self <- get_self ;;
  run_phases (phases (scenario self)) ;;
  print_summary.

(** The attributes [__init__] gives the object once the configuration
    and the scenario are accepted. *)
Definition new_workflow (scenario_type : string) (sc : scenario_t) (topic : string)
  : workflow :=
  {| outputs := [];
     model := OPENAI_MODEL Config;
     scenario := sc;
     scenario_type := scenario_type;
     topic := topic |}.

(** [CustomProblemWorkflow(scenario_type=..., topic=...)] *)
Definition init (scenario_type topic : string) : M world workflow :=
  (if validate_setup Config
   then ret tt
   else print "ERROR: Configuration validation failed!" ;; exit 1%Z) ;;
  match scenario_lookup scenario_type SCENARIOS with
  | None =>
      print ("ERROR: Unknown scenario type '" ++ scenario_type ++ "'") ;;
      print ("Available scenarios: " ++ join ", " (map fst SCENARIOS)) ;;
      exit 1%Z
  | Some sc => ret (new_workflow scenario_type sc topic)
  end.

(** The line the handler of [main] prints first. *)
Definition error_line (e : exn) : string :=
  NL ++ "❌ Error during workflow execution: " ++ str_exn e.

Definition success_line : string := NL ++ "✅ Workflow completed successfully!".

(** The [try] statement that ends [main]. *)
Definition handler (e : exn) : M world unit :=
  print (error_line e) ;;
  print (NL ++ "Troubleshooting:") ;;
  print "1. Verify OPENAI_API_KEY is set in parent directory .env (../.env)" ;;
  print "2. Check your API key has sufficient credits" ;;
  print "3. Verify internet connection" ;;
  print "4. Ensure config.py can access shared_config from parent directory" ;;
  print_exc e.

Definition main_try (scenario topic : string) : M world unit :=
  try_except
    (workflow <- init scenario topic ;;
     call_on workflow run ;;
     print success_line)
    handler.

(** The menu of the interactive mode; it yields the scenario and topic. *)
Definition interactive : M world (string * string) :=
  print (NL ++ rep "=" 80) ;;
  print "AUTOGEN CUSTOM PROBLEMS - EXERCISE 4" ;;
  print (rep "=" 80) ;;
  print (NL ++ "Available Scenarios:") ;;
  print "1. conference - Plan a 3-day conference agenda" ;;
  print "2. marketing  - Design a marketing strategy for a product" ;;
  print "3. research   - Create a research paper outline" ;;
  print "4. architecture - Plan a software architecture" ;;
  print "" ;;
  line <- input "Select scenario (1-4) or name: " ;;
  let choice := lower (strip line) in
  if String.eqb choice "1" || String.eqb choice "conference" then
    t <- input "Enter conference topic (e.g., 'AI & Machine Learning'): " ;;
    ret ("conference", strip t)
  else if String.eqb choice "2" || String.eqb choice "marketing" then
    t <- input "Enter product name (e.g., 'Smart Home Assistant'): " ;;
    ret ("marketing", strip t)
  else if String.eqb choice "3" || String.eqb choice "research" then
    t <- input "Enter research topic (e.g., 'Climate Change Impact'): " ;;
    ret ("research", strip t)
  else if String.eqb choice "4" || String.eqb choice "architecture" then
    t <- input "Enter software project (e.g., 'E-commerce Platform'): " ;;
    ret ("architecture", strip t)
  else
    print "Invalid choice. Using default: conference" ;;
    ret ("conference", "").

Definition main (argv : list string) : M world unit :=
  let scenario := "conference" in
  let topic := "" in
  let scenario :=
    match argv with
    | _ :: a :: _ => lower a
    | _ => scenario
    end in
  let topic :=
    match argv with
    | _ :: _ :: (_ :: _) as rest => join " " rest
    | _ => topic
    end in
  sel <- (match argv with
          | [_] => interactive
          | _ => ret (scenario, topic)
          end) ;;
  main_try (fst sel) (snd sel).

(** The exit status of the process for the way [main] was left: 0 when
    it returns, the code given to [exit], 1 for an uncaught exception. *)
Definition exit_status {A} (r : outcome A) : Z :=
  match r with
  | Normal _ => 0%Z
  | SystemExit code => code
  | Raised _ => 1%Z
  end.

(** The script run as [__main__]: the guarded import of the client
    library, then [main]. *)
Definition program (openai_installed : bool) (argv : list string) (w : world)
  : world * Z :=
  let '(w', r) :=
    (if openai_installed
     then main argv
     else print "ERROR: OpenAI client is not installed!" ;;
          print "Please run: pip install -r ../requirements.txt" ;;
          exit 1%Z) w in
  match r with
  | Raised e => (fst (print_exc e w'), 1%Z)
  | _ => (w', exit_status r)
  end.


(* ------------------------------------------------------------------ *)
(** *** The states the loop of [run] goes through

    [hist] lists the phases completed so far, each with the text that
    was stored for it. *)

Definition stored (po : phase * string) : string * string :=
  (phase_key (name (fst po)), snd po).

(** The object once the phases of [hist] have been stored. *)
Definition self_at (self : workflow) (hist : list (phase * string)) : workflow :=
  set_outputs (map stored hist) self.

(** How one earlier phase is rendered in the message. *)
Definition entry (po : phase * string) : string :=
  NL ++ name (fst po) ++ ":" ++ NL ++ snd po ++ NL.

Fixpoint flat (l : list string) : string :=
  match l with
  | [] => EmptyString
  | x :: r => x ++ flat r
  end.

Definition topic_prefix (topic : string) : string :=
  "Topic/Product: " ++ topic ++ NL ++ NL.

Definition context_header : string := NL ++ NL ++ "Previous Phase Results:" ++ NL.

(** What [execute_phase] prints before it calls the client. *)
Definition banner (phase_num : nat) (phase_config : phase) : list string :=
  [ NL ++ rep "=" 80 ++ NL;
    "PHASE " ++ str_nat phase_num ++ ": " ++ upper (name phase_config) ++ NL;
    rep "=" 80 ++ NL;
    "[" ++ agent phase_config ++ " is working...]" ++ NL ].

(** The world once [execute_phase] has sent its request. *)
Definition world_sent (w : world) (self : workflow) (phase_num : nat)
           (phase_config : phase) : world :=
  {| stdout := (stdout w ++ banner phase_num phase_config)%list;
     stderr := stderr w;
     requests := append_item (requests w) (phase_request self phase_num phase_config);
     files := files w; clock_reads := clock_reads w; stdin := stdin w |}.

(** The world once [execute_phase] has printed the answer. *)
Definition world_done (w : world) (self : workflow) (phase_num : nat)
           (phase_config : phase) (text : string) : world :=
  with_stdout
    (fun o => append_item (append_item o (NL ++ "[" ++ agent phase_config ++ " Output]" ++ NL))
                          (text ++ NL))
    (world_sent w self phase_num phase_config).

(** One turn of the loop of [run], as a step relation: [loop_step ps k s r]
    says that the first [k] turns over [ps] leave the state [s] and the
    outcome [r]. *)
Inductive loop_step (ps : list phase) (s0 : st) : nat -> st -> outcome unit -> Prop :=
| loop_start : loop_step ps s0 0 s0 (Normal tt)
| loop_answer k w self p text :
    loop_step ps s0 k (w, self) (Normal tt) ->
    nth_error ps k = Some p ->
    client (length (requests w)) (phase_request self (S k) p) = inr text ->
    loop_step ps s0 (S k)
              (world_done w self (S k) p text,
               set_outputs (PyDict.set (phase_key (name p)) text (outputs self)) self)
              (Normal tt)
| loop_error k w self p e :
    loop_step ps s0 k (w, self) (Normal tt) ->
    nth_error ps k = Some p ->
    client (length (requests w)) (phase_request self (S k) p) = inl e ->
    loop_step ps s0 (S k) (world_sent w self (S k) p, self) (Raised e)
| loop_left k s e :
    loop_step ps s0 k s (Raised e) ->
    k < length ps ->
    loop_step ps s0 (S k) s (Raised e).

(** The content of the user-role message of a request. *)
Definition user_content (req : request) : string :=
  match nth_error (req_messages req) 1 with
  | Some m => content m
  | None => ""
  end.

(** What the handler of [main] writes to standard output. *)
Definition handler_lines (e : exn) : list string :=
  [ error_line e ++ NL;
    NL ++ "Troubleshooting:" ++ NL;
    "1. Verify OPENAI_API_KEY is set in parent directory .env (../.env)" ++ NL;
    "2. Check your API key has sufficient credits" ++ NL;
    "3. Verify internet connection" ++ NL;
    "4. Ensure config.py can access shared_config from parent directory" ++ NL ].

(** The world once the handler of [main] has run. *)
Definition world_handled (e : exn) (w : world) : world :=
  {| stdout := (stdout w ++ handler_lines e)%list;
     stderr := append_item (stderr w) e;
     requests := requests w; files := files w;
     clock_reads := clock_reads w; stdin := stdin w |}.

Fixpoint distinctb (l : list string) : bool :=
  match l with
  | [] => true
  | x :: r => negb (existsb (String.eqb x) r) && distinctb r
  end.

(** The storage key of a phase. *)
Definition pkey (p : phase) : string := phase_key (name p).

(** [answered ps n0 self0 hist reqs]: starting from the object [self0],
    with [n0] requests made before, the phases of [hist] were sent, in the
    order of [ps], as the requests [reqs], and the client answered each
    with the text [hist] records. *)
Inductive answered (ps : list phase) (n0 : nat) (self0 : workflow)
  : list (phase * string) -> list request -> Prop :=
| answered_nil : answered ps n0 self0 [] []
| answered_snoc hist reqs p text :
    answered ps n0 self0 hist reqs ->
    nth_error ps (length hist) = Some p ->
    client (n0 + length hist)
           (phase_request (self_at self0 hist) (S (length hist)) p) = inr text ->
    answered ps n0 self0
             (hist ++ [(p, text)])
             (reqs ++ [phase_request (self_at self0 hist) (S (length hist)) p]).

(** The block that carries the earlier phases' results. *)
Definition context_block (hist : list (phase * string)) : string :=
  context_header ++ flat (map entry hist).

(** The layout of the user message in closed form: the topic line when
    there is a topic, the block of earlier results followed by a line
    feed when there are earlier phases, then the prompt. *)
Definition message_layout (topic : string) (hist : list (phase * string))
           (p : phase) : string :=
  (if truthy topic then topic_prefix topic else "") ++
  (match hist with
   | [] => ""
   | _ => context_block hist ++ NL
   end) ++
  prompt p.

(** [steady s s']: going from [s] to [s'] left the object and the list of
    requests as they were and removed no file. *)
Definition steady (s s' : st) : Prop :=
  snd s' = snd s /\
  requests (fst s') = requests (fst s) /\
  clock_reads (fst s) <= clock_reads (fst s') /\
  (forall k, PyDict.mem k (files (fst s)) = true ->
             PyDict.mem k (files (fst s')) = true).

(** A computation that calls neither the client nor [exit] and stores
    nothing in the object. *)
Definition quiet {A} (m : M st A) : Prop :=
  forall s, steady s (fst (m s)) /\ (forall c, snd (m s) <> SystemExit c).

(** A computation that ends normally whenever it runs on the object [self]. *)
Definition total_at {A} (self : workflow) (m : M st A) : Prop :=
  forall w, exists a, snd (m (w, self)) = Normal a.

(** The invariant of the loop.  After [k] turns either all [k] phases were
    answered, or the loop was left at the first call that failed, right
    after the banner of that phase was printed. *)
Definition loop_inv (ps : list phase) (w0 : world) (self0 : workflow)
           (k : nat) (s : st) (r : outcome unit) : Prop :=
  exists hist reqs,
    answered ps (length (requests w0)) self0 hist reqs /\
    snd s = self_at self0 hist /\
    match r with
    | Normal _ =>
        length hist = k /\ requests (fst s) = (requests w0 ++ reqs)%list
    | Raised e =>
        length hist < k /\
        exists p pre,
          nth_error ps (length hist) = Some p /\
          requests (fst s) =
            (requests w0 ++ reqs
               ++ [phase_request (self_at self0 hist) (S (length hist)) p])%list /\
          client (length (requests w0) + length hist)
                 (phase_request (self_at self0 hist) (S (length hist)) p) = inl e /\
          stdout (fst s) = (pre ++ banner (S (length hist)) p)%list
    | SystemExit _ => False
    end.

(** The object holds a text for every phase of its scenario. *)
Definition complete (self : workflow) : Prop :=
  forall p, In p (phases (scenario self)) -> PyDict.get (pkey p) (outputs self) <> None.

(** The outcome of [run] on a fresh object whose phases have distinct
    keys: every phase was answered and the summary written, or the loop
    was left at the first call that failed. *)
Definition run_outcome (ps : list phase) (w : world) (self : workflow)
           (hist : list (phase * string)) (reqs : list request)
           (w' : world) (r : outcome unit) : Prop :=
  match r with
  | Normal _ =>
      map fst hist = ps /\
      requests w' = (requests w ++ reqs)%list /\
      exists n, clock_reads w < n < clock_reads w' /\
                PyDict.mem (output_file_name (scenario_type self) (now n)) (files w') = true
  | Raised e =>
      length hist < length ps /\
      exists p pre,
        nth_error ps (length hist) = Some p /\
        requests w' =
          (requests w ++ reqs
             ++ [phase_request (self_at self hist) (S (length hist)) p])%list /\
        client (length (requests w) + length hist)
               (phase_request (self_at self hist) (S (length hist)) p) = inl e /\
        stdout w' = (pre ++ banner (S (length hist)) p)%list /\
        files w' = files w
  | SystemExit _ => False
  end.

(** The key, one character at a time. *)
Definition key_char (c : ascii) : ascii :=
  let l := lower_char c in if Ascii.eqb l " " then "_"%char else l.

(** What the table's names and prompts hold of the marker: nothing. *)
Definition marker_free (sc : scenario_t) : bool :=
  forallb (fun p => negb (occurs topic_marker (name p ++ ":"))
                    && negb (occurs topic_marker (prompt p)))
          (phases sc).

(** A computation that leaves the part [f] of the world as it is. *)
Definition keeps {X A} (f : world -> X) (m : M st A) : Prop :=
  forall s, f (fst (fst (m s))) = f (fst s).

(** The world once [input(p)] has written its prompt and taken a line,
    the lines [r] remaining. *)
Definition world_asked (p : string) (r : list string) (w : world) : world :=
  {| stdout := append_item (stdout w) p; stderr := stderr w; requests := requests w;
     files := files w; clock_reads := clock_reads w; stdin := r |}.

(** What the menu accepts, once stripped and in lower case. *)
Definition menu_entries : list (string * string) :=
  [("1", "conference"); ("2", "marketing"); ("3", "research"); ("4", "architecture")].

(** The text the mapping holds for a phase, empty when it holds none. *)
Definition stored_text (d : PyDict.dict) (p : phase) : string :=
  match PyDict.get (phase_key (name p)) d with
  | Some o => o
  | None => ""
  end.

(** The part of the transcript for the phases [l], numbered from [i]. *)
Fixpoint sections (d : PyDict.dict) (i : nat) (l : list phase) : string :=
  match l with
  | [] => ""
  | p :: r =>
      NL ++ rep "-" 80 ++ NL
      ++ "PHASE " ++ str_nat i ++ ": " ++ upper (name p) ++ NL
      ++ rep "-" 80 ++ NL
      ++ stored_text d p ++ NL
      ++ sections d (S i) r
  end.

(** The text of the result file, in closed form. *)
Definition transcript (self : workflow) (generated : datetime) : string :=
  rep "=" 80 ++ NL
  ++ "AUTOGEN " ++ upper (scenario_name (scenario self)) ++ " - FULL RESULTS" ++ NL
  ++ rep "=" 80 ++ NL
  ++ "Generated: " ++ strftime_long generated ++ NL
  ++ "Model: " ++ model self ++ NL
  ++ (if truthy (topic self) then "Topic: " ++ topic self ++ NL else "")
  ++ NL
  ++ sections (outputs self) 1 (phases (scenario self)).

(** The world after one more reading of the clock. *)
Definition tick (w : world) : world :=
  {| stdout := stdout w; stderr := stderr w; requests := requests w;
     files := files w; clock_reads := S (clock_reads w); stdin := stdin w |}.

(** A computation that raises [e] whenever it runs on the object [self]. *)
Definition raises_at {A} (self : workflow) (e : exn) (m : M st A) : Prop :=
  forall w, snd (m (w, self)) = Raised e.

(** What [execute_phase] writes to standard output for an answered
    phase: the banner, the output header and the answer. *)
Definition phase_lines (phase_num : nat) (po : phase * string) : list string :=
  append_item
    (append_item (banner phase_num (fst po))
                 (NL ++ "[" ++ agent (fst po) ++ " Output]" ++ NL))
    (snd po ++ NL).

(** The lines of the answered phases [hist], numbered from [i]. *)
Fixpoint log_lines (i : nat) (hist : list (phase * string)) : list string :=
  match hist with
  | [] => []
  | po :: r => (phase_lines i po ++ log_lines (S i) r)%list
  end.

(* ================================================================== *)
(** ** Facts about strings and dictionaries *)

Lemma append_assoc (a b c : string) : (a ++ b) ++ c = a ++ (b ++ c).
Proof. induction a as [|x a IH]; simpl; [reflexivity | now rewrite IH]. Qed.

Lemma append_nil_r (a : string) : a ++ "" = a.
Proof. induction a as [|x a IH]; simpl; [reflexivity | now rewrite IH]. Qed.

(** Both sides of an equation between concatenations, brought to the
    right-nested form with the literal pieces unfolded. *)
Ltac str_norm :=
  unfold NL; cbn [append]; repeat (rewrite append_assoc; cbn [append]).

Lemma get_set_same k v d : PyDict.get k (PyDict.set k v d) = Some v.
Proof.
  induction d as [|[k' v'] d IH]; simpl.
  - now rewrite String.eqb_refl.
  - destruct (String.eqb k' k) eqn:E; simpl; rewrite E; [reflexivity | exact IH].
Qed.

Lemma get_set_other k k' v d :
  k <> k' -> PyDict.get k' (PyDict.set k v d) = PyDict.get k' d.
Proof.
  intros Hne. induction d as [|[k1 v1] d IH]; simpl.
  - destruct (String.eqb_spec k k'); [contradiction | reflexivity].
  - destruct (String.eqb_spec k1 k) as [->|Hk]; simpl.
    + destruct (String.eqb_spec k k'); [contradiction | reflexivity].
    + destruct (String.eqb_spec k1 k'); [reflexivity | exact IH].
Qed.

Lemma get_None_keys k d : PyDict.get k d = None <-> ~ In k (PyDict.keys d).
Proof.
  induction d as [|[k' v'] d IH]; simpl.
  - tauto.
  - destruct (String.eqb_spec k' k) as [->|Hk].
    + split; [discriminate | intros H; exfalso; apply H; now left].
    + rewrite IH. split; [intros H [?|?]; [contradiction | now apply H] | tauto].
Qed.

Lemma set_fresh k v d :
  PyDict.get k d = None -> PyDict.set k v d = (d ++ [(k, v)])%list.
Proof.
  induction d as [|[k' v'] d IH]; simpl; [reflexivity|].
  destruct (String.eqb k' k); [discriminate|].
  intros H. now rewrite IH.
Qed.

(* ================================================================== *)
(** ** What one call of [execute_phase] does *)

Lemma execute_phase_eq (phase_num : nat) (p : phase) (w : world) (self : workflow) :
  execute_phase phase_num p (w, self) =
  match client (length (requests w)) (phase_request self phase_num p) with
  | inl e => ((world_sent w self phase_num p, self), Raised e)
  | inr text =>
      ((world_done w self phase_num p text,
        set_outputs (PyDict.set (phase_key (name p)) text (outputs self)) self),
       Normal tt)
  end.
Proof.
  unfold execute_phase, bind, liftW, print, get_self, create, setitem, getitem.
  cbn [fst snd with_stdout stdout stderr requests files clock_reads stdin].
  destruct (client (length (requests w)) (phase_request self phase_num p)) as [e|text].
  - unfold world_sent, banner, append_item.
    repeat rewrite <- app_assoc. cbn [app].
    repeat rewrite append_assoc. reflexivity.
  - cbn [fst snd outputs set_outputs].
    rewrite get_set_same.
    unfold world_done, world_sent, banner, append_item, with_stdout.
    cbn [fst snd with_stdout stdout stderr requests files clock_reads stdin].
    repeat rewrite <- app_assoc. cbn [app].
    repeat rewrite append_assoc. reflexivity.
Qed.

(* ================================================================== *)
(** ** The loop of [run] *)

Lemma bind_ret_tt {St} (m : M St unit) (s : St) : bind m (fun _ => ret tt) s = m s.
Proof.
  unfold bind, ret. destruct (m s) as [s' [[]|e|c]]; reflexivity.
Qed.

(** The turns of a [for] loop run one after the other: a loop over
    [l ++ [x]] is the loop over [l] followed, when that one ends normally,
    by the body on [x]. *)
Lemma for_enumerate_snoc {St A} (body : nat -> A -> M St unit) (l : list A) :
  forall (i : nat) (x : A) (s : St),
  for_enumerate body i (l ++ [x])%list s =
  match for_enumerate body i l s with
  | (s', Normal _) => body (i + length l) x s'
  | (s', Raised e) => (s', Raised e)
  | (s', SystemExit c) => (s', SystemExit c)
  end.
Proof.
  induction l as [|y l IH]; intros i x s; simpl.
  - rewrite bind_ret_tt. unfold ret. now rewrite Nat.add_0_r.
  - unfold bind.
    destruct (body i y s) as [s1 [[]|e|c]]; try reflexivity.
    rewrite IH. now rewrite Nat.add_succ_comm.
Qed.

Lemma firstn_snoc {A} (l : list A) (k : nat) (x : A) :
  nth_error l k = Some x -> firstn (S k) l = (firstn k l ++ [x])%list.
Proof.
  revert k. induction l as [|y l IH]; intros [|k] H; simpl in *; try discriminate.
  - now injection H as ->.
  - now rewrite (IH k H).
Qed.

Lemma loop_step_no_exit ps s0 k s c : ~ loop_step ps s0 k s (SystemExit c).
Proof. intros H. inversion H. Qed.

(** The step relation describes the loop: the first [k] turns of
    [run_phases] are a [loop_step] derivation. *)
Lemma run_phases_steps (ps : list phase) (s0 : st) (k : nat) :
  k <= length ps ->
  loop_step ps s0 k (fst (run_phases (firstn k ps) s0))
                    (snd (run_phases (firstn k ps) s0)).
Proof.
  induction k as [|k IH]; intros Hk.
  - simpl. constructor.
  - assert (Hlt : k < length ps) by lia.
    destruct (nth_error ps k) as [p|] eqn:Hp;
      [|apply nth_error_None in Hp; lia].
    rewrite (firstn_snoc _ _ _ Hp). unfold run_phases in *.
    rewrite for_enumerate_snoc.
    specialize (IH (Nat.lt_le_incl _ _ Hlt)).
    destruct (for_enumerate execute_phase 1 (firstn k ps) s0) as [[w self] [[]|e|c]];
      cbn [fst snd] in IH.
    + rewrite length_firstn, Nat.min_l by lia. cbn [Nat.add].
      rewrite execute_phase_eq.
      destruct (client (length (requests w)) (phase_request self (S k) p)) as [e|text] eqn:Hc;
        cbn [fst snd].
      * now apply loop_error.
      * now apply loop_answer.
    + cbn [fst snd]. now apply loop_left.
    + exfalso. exact (loop_step_no_exit _ _ _ _ _ IH).
Qed.

(* ================================================================== *)
(** ** What the answered phases look like *)

Lemma answered_length ps n0 self0 hist reqs :
  answered ps n0 self0 hist reqs -> length reqs = length hist.
Proof.
  induction 1 as [|hist reqs p text _ IH _ _]; [reflexivity|].
  rewrite !last_length. now rewrite IH.
Qed.

Lemma answered_phases ps n0 self0 hist reqs :
  answered ps n0 self0 hist reqs -> map fst hist = firstn (length hist) ps.
Proof.
  induction 1 as [|hist reqs p text _ IH Hp _]; [reflexivity|].
  rewrite last_length, map_app, IH. simpl.
  symmetry. now apply firstn_snoc.
Qed.

Lemma firstn_app_exact {A} (l l' : list A) : firstn (length l) (l ++ l') = l.
Proof.
  rewrite firstn_app, Nat.sub_diag, firstn_all. simpl. now rewrite app_nil_r.
Qed.

Lemma firstn_app_short {A} (l l' : list A) j :
  j <= length l -> firstn j (l ++ l') = firstn j l.
Proof.
  intros H. rewrite firstn_app.
  replace (j - length l) with 0 by lia. simpl. now rewrite app_nil_r.
Qed.

(** Every answered phase: where it stands, what was sent for it and what
    came back. *)
Lemma answered_nth ps n0 self0 hist reqs :
  answered ps n0 self0 hist reqs ->
  forall j p o, nth_error hist j = Some (p, o) ->
    nth_error ps j = Some p /\
    nth_error reqs j = Some (phase_request (self_at self0 (firstn j hist)) (S j) p) /\
    client (n0 + j)
           (phase_request (self_at self0 (firstn j hist)) (S j) p) = inr o.
Proof.
  induction 1 as [|hist reqs p text Ha IH Hp Hc]; intros j q o Hj.
  - destruct j; discriminate.
  - pose proof (answered_length _ _ _ _ _ Ha) as Hlen.
    destruct (Nat.lt_ge_cases j (length hist)) as [Hlt|Hge].
    + rewrite nth_error_app1 in Hj by exact Hlt.
      destruct (IH _ _ _ Hj) as (H1 & H2 & H3).
      rewrite firstn_app_short by lia.
      rewrite nth_error_app1 by lia. auto.
    + assert (j = length hist) as ->.
      { assert (j < length (hist ++ [(p, text)])%list)
          by (apply nth_error_Some; congruence).
        rewrite last_length in *. lia. }
      rewrite nth_error_app2, Nat.sub_diag in Hj by lia.
      simpl in Hj. injection Hj as <- <-.
      rewrite firstn_app_exact.
      rewrite nth_error_app2 by lia.
      rewrite Hlen, Nat.sub_diag. simpl. auto.
Qed.

Lemma NoDup_firstn_later {A} (l : list A) (k j : nat) (x : A) :
  NoDup l -> k <= j -> nth_error l j = Some x -> ~ In x (firstn k l).
Proof.
  intros Hnd Hkj Hj Hin.
  apply In_nth_error in Hin. destruct Hin as [i Hi].
  rewrite nth_error_firstn in Hi.
  destruct (Nat.ltb_spec i k) as [Hlt|]; [|discriminate].
  assert (i = j); [|lia].
  apply (proj1 (NoDup_nth_error l) Hnd).
  - apply nth_error_Some. congruence.
  - congruence.
Qed.

Lemma NoDup_firstn_nth {A} (l : list A) (k : nat) (x : A) :
  NoDup l -> nth_error l k = Some x -> ~ In x (firstn k l).
Proof. intros Hnd. now apply NoDup_firstn_later. Qed.

Lemma keys_stored (hist : list (phase * string)) :
  PyDict.keys (map stored hist) = map pkey (map fst hist).
Proof.
  unfold PyDict.keys. rewrite !map_map. reflexivity.
Qed.

(** With distinct keys, the key of the phase that comes next is not yet
    in the dictionary, so storing its text appends an entry. *)
Lemma next_key_fresh ps hist p :
  NoDup (map pkey ps) ->
  map fst hist = firstn (length hist) ps ->
  nth_error ps (length hist) = Some p ->
  PyDict.get (pkey p) (map stored hist) = None.
Proof.
  intros Hnd Hh Hp. apply get_None_keys.
  rewrite keys_stored, Hh, <- firstn_map.
  apply NoDup_firstn_nth; [exact Hnd|].
  rewrite nth_error_map, Hp. reflexivity.
Qed.

Lemma self_at_nil (self0 : workflow) : outputs self0 = [] -> self_at self0 [] = self0.
Proof. destruct self0; simpl; intros ->; reflexivity. Qed.

Lemma self_at_store (self0 : workflow) hist p text :
  PyDict.get (pkey p) (map stored hist) = None ->
  set_outputs (PyDict.set (phase_key (name p)) text (outputs (self_at self0 hist)))
              (self_at self0 hist)
  = self_at self0 (hist ++ [(p, text)]).
Proof.
  intros H. unfold self_at, set_outputs. cbn [outputs model scenario scenario_type topic].
  fold (pkey p). rewrite (set_fresh _ _ _ H), map_app. reflexivity.
Qed.

Lemma loop_step_inv ps w0 self0 k s r :
  outputs self0 = [] ->
  NoDup (map pkey ps) ->
  loop_step ps (w0, self0) k s r ->
  loop_inv ps w0 self0 k s r.
Proof.
  intros Hout Hnd Hstep.
  induction Hstep as [|k w self p text _ IH Hp Hc|k w self p e _ IH Hp Hc|k s e _ IH Hk].
  - exists [], []. repeat split.
    + constructor.
    + simpl. symmetry. now apply self_at_nil.
    + simpl. now rewrite app_nil_r.
  - destruct IH as (hist & reqs & Ha & Hs & Hlen & Hreq).
    cbn [fst snd] in *. subst self k.
    exists (hist ++ [(p, text)])%list,
           (reqs ++ [phase_request (self_at self0 hist) (S (length hist)) p])%list.
    pose proof (answered_length _ _ _ _ _ Ha) as Hl.
    assert (Hn : length (requests w) = length (requests w0) + length hist)
      by (rewrite Hreq, length_app; lia).
    rewrite Hn in Hc.
    split; [now apply answered_snoc|].
    split; [|split].
    + apply self_at_store.
      apply (next_key_fresh ps); auto. now apply (answered_phases _ (length (requests w0)) self0 _ reqs).
    + now rewrite last_length.
    + unfold world_done, world_sent, with_stdout, append_item. cbn [fst requests].
      rewrite Hreq. now rewrite <- app_assoc.
  - destruct IH as (hist & reqs & Ha & Hs & Hlen & Hreq).
    cbn [fst snd] in *. subst self k.
    exists hist, reqs.
    pose proof (answered_length _ _ _ _ _ Ha) as Hl.
    assert (Hn : length (requests w) = length (requests w0) + length hist)
      by (rewrite Hreq, length_app; lia).
    rewrite Hn in Hc.
    split; [exact Ha|]. split; [reflexivity|].
    split; [lia|].
    exists p, (stdout w). repeat split; auto.
    unfold world_sent, append_item. cbn [fst requests].
    rewrite Hreq. now rewrite <- app_assoc.
  - destruct IH as (hist & reqs & Ha & Hs & Hlen & Hrest).
    exists hist, reqs. repeat split; auto.
Qed.

(* ================================================================== *)
(** ** The message in closed form *)

Lemma get_stored hist p o :
  NoDup (map pkey (map fst hist)) ->
  In (p, o) hist ->
  PyDict.get (pkey p) (map stored hist) = Some o.
Proof.
  induction hist as [|[q o'] hist IH]; intros Hnd Hin; [contradiction|].
  simpl in Hnd. inversion Hnd as [|? ? Hq Hnd']; subst.
  cbn [map stored PyDict.get fst snd]. fold (pkey q).
  destruct Hin as [Heq|Hin].
  - injection Heq as -> ->. now rewrite String.eqb_refl.
  - destruct (String.eqb_spec (pkey q) (pkey p)) as [Hk|_].
    + exfalso. apply Hq. rewrite Hk.
      apply in_map. apply (in_map fst) in Hin. exact Hin.
    + now apply IH.
Qed.

Lemma fold_add_context d (l : list (phase * string)) :
  (forall p o, In (p, o) l -> PyDict.get (pkey p) d = Some o) ->
  forall acc,
    fold_left (add_context d) (map fst l) acc = acc ++ flat (map entry l).
Proof.
  induction l as [|[q o] l IH]; intros Hget acc; simpl.
  - now rewrite append_nil_r.
  - rewrite IH by (intros; apply Hget; now right).
    unfold add_context. cbn [fst]. fold (pkey q).
    rewrite (Hget q o) by now left.
    unfold entry. cbn [fst snd].
    now str_norm.
Qed.

Lemma NoDup_map_firstn {A B} (f : A -> B) (l : list A) (n : nat) :
  NoDup (map f l) -> NoDup (map f (firstn n l)).
Proof.
  intros H. rewrite <- (firstn_skipn n l), map_app in H.
  now apply NoDup_app_remove_r in H.
Qed.

(** The message [execute_phase] builds once the phases of [hist] are
    stored is laid out as [message_layout] says. *)
Lemma build_user_message_at ps self0 hist p :
  phases (scenario self0) = ps ->
  NoDup (map pkey ps) ->
  map fst hist = firstn (length hist) ps ->
  build_user_message (self_at self0 hist) (S (length hist)) p
  = message_layout (topic self0) hist p.
Proof.
  intros Hps Hnd Hh.
  unfold build_user_message, message_layout, build_context, context_block.
  cbn [self_at set_outputs outputs topic scenario].
  replace (S (length hist) - 1) with (length hist) by lia.
  rewrite Hps, <- Hh.
  rewrite fold_add_context.
  2:{ intros q o Hin. apply get_stored; [|exact Hin].
      rewrite Hh. now apply NoDup_map_firstn. }
  fold context_header.
  destruct hist as [|x hist].
  - replace (Nat.ltb 1 (S (length (@nil (phase * string))))) with false by reflexivity.
    destruct (truthy (topic self0)); unfold topic_prefix; now str_norm.
  - replace (Nat.ltb 1 (S (length (x :: hist)))) with true by reflexivity.
    destruct (truthy (topic self0)); unfold topic_prefix, context_header; now str_norm.
Qed.

(* ================================================================== *)
(** ** Computations that only print, read the clock and write files *)

Lemma steady_refl s : steady s s.
Proof. repeat split; auto. Qed.

Lemma steady_trans s1 s2 s3 : steady s1 s2 -> steady s2 s3 -> steady s1 s3.
Proof.
  intros (A1 & B1 & C1 & D1) (A2 & B2 & C2 & D2). repeat split.
  - congruence.
  - congruence.
  - lia.
  - auto.
Qed.

Lemma mem_set k k' v d :
  PyDict.mem k d = true -> PyDict.mem k (PyDict.set k' v d) = true.
Proof.
  unfold PyDict.mem. destruct (String.eqb_spec k' k) as [->|Hne].
  - now rewrite get_set_same.
  - now rewrite get_set_other.
Qed.

Lemma mem_set_same k v d : PyDict.mem k (PyDict.set k v d) = true.
Proof. unfold PyDict.mem. now rewrite get_set_same. Qed.

Lemma quiet_ret {A} (a : A) : quiet (ret a).
Proof. intros s. split; [apply steady_refl | discriminate]. Qed.

Lemma quiet_bind {A B} (m : M st A) (k : A -> M st B) :
  quiet m -> (forall a, quiet (k a)) -> quiet (bind m k).
Proof.
  intros Hm Hk s. unfold bind.
  destruct (Hm s) as [Hs Hx].
  destruct (m s) as [s1 [a|e|c]]; cbn [fst snd] in *.
  - destruct (Hk a s1) as [Hs1 Hx1].
    split; [eapply steady_trans; eauto | exact Hx1].
  - split; [exact Hs | discriminate].
  - exfalso. now apply (Hx c).
Qed.

Lemma quiet_get_self : quiet get_self.
Proof. intros s. split; [apply steady_refl | discriminate]. Qed.

Lemma quiet_getitem k : quiet (getitem k).
Proof.
  intros s. unfold getitem.
  destruct (PyDict.get k (outputs (snd s))); (split; [apply steady_refl | discriminate]).
Qed.

Lemma quiet_print x : quiet (liftW (print x)).
Proof. intros [w self]. split; [repeat split; auto | discriminate]. Qed.

Lemma quiet_now : quiet (liftW datetime_now).
Proof. intros [w self]. split; [repeat split; cbn; auto | discriminate]. Qed.

Lemma quiet_open path : quiet (liftW (open_w path)).
Proof.
  intros [w self]. split; [|discriminate].
  repeat split; auto. cbn. intros k. apply mem_set.
Qed.

Lemma quiet_fwrite path x : quiet (liftW (fwrite path x)).
Proof.
  intros [w self]. split; [|discriminate].
  repeat split; auto. cbn. intros k. apply mem_set.
Qed.

Lemma quiet_if {A} (b : bool) (m1 m2 : M st A) :
  quiet m1 -> quiet m2 -> quiet (if b then m1 else m2).
Proof. now destruct b. Qed.

Lemma quiet_for {A} (body : nat -> A -> M st unit) (l : list A) :
  (forall i x, quiet (body i x)) -> forall i, quiet (for_enumerate body i l).
Proof.
  intros Hb. induction l as [|x l IH]; intros i; simpl.
  - apply quiet_ret.
  - apply quiet_bind; auto.
Qed.

Create HintDb quiet.
#[local] Hint Resolve quiet_ret quiet_get_self quiet_getitem quiet_print quiet_now
  quiet_open quiet_fwrite : quiet.

Ltac quiet_tac :=
  repeat first
    [ apply quiet_bind; [|intro]
    | apply quiet_if
    | apply quiet_for; intros
    | solve [auto with quiet] ].

Lemma quiet_print_report : quiet print_report.
Proof. unfold print_report. quiet_tac. Qed.

Lemma quiet_write_results path : quiet (write_results path).
Proof. unfold write_results. quiet_tac. Qed.

Lemma quiet_print_saved path : quiet (print_saved path).
Proof. unfold print_saved. quiet_tac. Qed.

Lemma quiet_print_summary : quiet print_summary.
Proof.
  unfold print_summary.
  pose proof quiet_print_report. pose proof quiet_write_results.
  pose proof quiet_print_saved. quiet_tac.
Qed.

Lemma quiet_run_banner : quiet run_banner.
Proof. unfold run_banner. quiet_tac. Qed.

(** *** Ending normally *)

Lemma total_ret {A} self (a : A) : total_at self (ret a).
Proof. intros w. now exists a. Qed.

Lemma total_bind {A B} self (m : M st A) (k : A -> M st B) :
  quiet m -> total_at self m -> (forall a, total_at self (k a)) ->
  total_at self (bind m k).
Proof.
  intros Hq Hm Hk w. unfold bind.
  destruct (Hm w) as [a Ha]. destruct (Hq (w, self)) as [(Hs & _) _].
  destruct (m (w, self)) as [[w1 self1] r]. cbn [fst snd] in *. subst r self1.
  apply Hk.
Qed.

Lemma total_get_self {B} self (k : workflow -> M st B) :
  total_at self (k self) -> total_at self (bind get_self k).
Proof. intros Hk w. unfold bind, get_self. cbn. apply Hk. Qed.

Lemma total_getitem self k :
  PyDict.get k (outputs self) <> None -> total_at self (getitem k).
Proof.
  intros H w. unfold getitem. cbn [snd].
  destruct (PyDict.get k (outputs self)) as [v|]; [now exists v | contradiction].
Qed.

Lemma total_print self x : total_at self (liftW (print x)).
Proof. intros w. now exists tt. Qed.

Lemma total_now self : total_at self (liftW datetime_now).
Proof. intros w. now eexists. Qed.

Lemma total_open self path : total_at self (liftW (open_w path)).
Proof. intros w. now exists tt. Qed.

Lemma total_fwrite self path x : total_at self (liftW (fwrite path x)).
Proof. intros w. now exists tt. Qed.

Lemma total_if {A} self (b : bool) (m1 m2 : M st A) :
  total_at self m1 -> total_at self m2 -> total_at self (if b then m1 else m2).
Proof. now destruct b. Qed.

Lemma total_for {A} self (body : nat -> A -> M st unit) (l : list A) :
  (forall i x, quiet (body i x)) ->
  (forall i x, In x l -> total_at self (body i x)) ->
  forall i, total_at self (for_enumerate body i l).
Proof.
  intros Hq. induction l as [|x l IH]; intros Hb i; simpl.
  - apply total_ret.
  - apply total_bind.
    + apply Hq.
    + apply Hb. now left.
    + intros _. apply IH. intros j y Hy. apply Hb. now right.
Qed.

#[local] Hint Resolve total_ret total_print total_now total_open total_fwrite : quiet.

Ltac total_tac :=
  repeat first
    [ apply total_get_self
    | apply total_bind; [quiet_tac | | intro]
    | apply total_if
    | apply total_for; [intros; quiet_tac | intros ? ? ?]
    | apply total_getitem
    | solve [auto with quiet] ].

Lemma total_print_report self : complete self -> total_at self print_report.
Proof. intros Hc. unfold print_report. total_tac. now apply Hc. Qed.

Lemma total_write_results self path : complete self -> total_at self (write_results path).
Proof. intros Hc. unfold write_results. total_tac. now apply Hc. Qed.

Lemma total_print_saved self path : total_at self (print_saved path).
Proof. unfold print_saved. total_tac. Qed.

Lemma total_print_summary self : complete self -> total_at self print_summary.
Proof.
  intros Hc. unfold print_summary.
  apply total_bind; [apply quiet_print_report | now apply total_print_report | intros _].
  apply total_get_self.
  apply total_bind; [apply quiet_now | apply total_now | intros t].
  apply total_bind; [apply quiet_open | apply total_open | intros _].
  apply total_bind; [apply quiet_write_results | now apply total_write_results | intros _].
  apply total_print_saved.
Qed.

Lemma total_run_banner self : total_at self run_banner.
Proof. unfold run_banner. total_tac. Qed.

(* ================================================================== *)
(** ** What a whole [run] does *)

Lemma bind_Normal_inv {St A B} (m : M St A) (k : A -> M St B) s s' b :
  bind m k s = (s', Normal b) ->
  exists s1 a, m s = (s1, Normal a) /\ k a s1 = (s', Normal b).
Proof.
  unfold bind. destruct (m s) as [s1 [a|e|c]]; intros H; try discriminate.
  now exists s1, a.
Qed.

Lemma complete_self_at self hist :
  map fst hist = phases (scenario self) -> complete (self_at self hist).
Proof.
  intros Hh p Hp. cbn [self_at set_outputs outputs scenario] in *.
  intros Hnone. apply get_None_keys in Hnone. apply Hnone.
  rewrite keys_stored, Hh. now apply in_map.
Qed.

Lemma liftW_now_eq w (self : workflow) :
  liftW datetime_now (w, self) =
  (({| stdout := stdout w; stderr := stderr w; requests := requests w;
       files := files w; clock_reads := S (clock_reads w); stdin := stdin w |}, self),
   Normal (now (clock_reads w))).
Proof. reflexivity. Qed.

Lemma liftW_open_eq path w (self : workflow) :
  liftW (open_w path) (w, self) =
  ((with_files (PyDict.set path "") w, self), Normal tt).
Proof. reflexivity. Qed.

(** A summary that ends normally has opened the file named after the
    scenario and a reading of the clock taken during the summary. *)
Lemma print_summary_file s s' a :
  print_summary s = (s', Normal a) ->
  snd s' = snd s /\
  exists n, clock_reads (fst s) <= n < clock_reads (fst s') /\
            PyDict.mem (output_file_name (scenario_type (snd s)) (now n))
                       (files (fst s')) = true.
Proof.
  unfold print_summary. intros H.
  apply bind_Normal_inv in H. destruct H as (s1 & [] & H1 & H).
  unfold bind at 1 in H. unfold get_self at 1 in H.
  apply bind_Normal_inv in H. destruct H as (s2 & t & H2 & H).
  apply bind_Normal_inv in H. destruct H as (s3 & [] & H3 & H).
  apply bind_Normal_inv in H. destruct H as (s4 & [] & H4 & H).
  destruct (quiet_print_report s) as [(A1 & _ & C1 & _) _]. rewrite H1 in A1, C1.
  destruct (quiet_write_results (output_file_name (scenario_type (snd s1)) t) s3)
    as [(A4 & _ & C4 & D4) _].
  rewrite H4 in A4, C4, D4.
  destruct (quiet_print_saved (output_file_name (scenario_type (snd s1)) t) s4)
    as [(A5 & _ & C5 & D5) _].
  rewrite H in A5, C5, D5. cbn [fst snd] in *.
  destruct s1 as [w1 self1].
  rewrite liftW_now_eq in H2. injection H2 as <- <-.
  rewrite liftW_open_eq in H3. injection H3 as <-.
  cbn [fst snd] in *. subst self1.
  split; [congruence|].
  exists (clock_reads w1). split.
  - cbn [clock_reads with_files] in C4. lia.
  - apply D5, D4. cbn [files with_files]. apply mem_set_same.
Qed.

Lemma run_banner_clock w self :
  clock_reads (fst (fst (run_banner (w, self)))) = S (clock_reads w) /\
  files (fst (fst (run_banner (w, self)))) = files w.
Proof.
  unfold run_banner, bind, get_self, liftW, print, datetime_now.
  cbn [fst snd]. destruct (truthy (topic self)); cbn; auto.
Qed.

Lemma loop_step_files ps s0 k s r :
  loop_step ps s0 k s r -> files (fst s) = files (fst s0).
Proof. induction 1; cbn in *; auto. Qed.

Lemma loop_step_clock ps s0 k s r :
  loop_step ps s0 k s r -> clock_reads (fst s) = clock_reads (fst s0).
Proof. induction 1; cbn in *; auto. Qed.

Lemma run_spec w self ps :
  phases (scenario self) = ps ->
  outputs self = [] ->
  NoDup (map pkey ps) ->
  exists hist reqs w' r,
    run (w, self) = ((w', self_at self hist), r) /\
    answered ps (length (requests w)) self hist reqs /\
    run_outcome ps w self hist reqs w' r.
Proof.
  intros Hps Hout Hnd. unfold run.
  destruct (total_run_banner self w) as [[] Hb].
  destruct (quiet_run_banner (w, self)) as [(Hb1 & Hb2 & _ & _) _].
  destruct (run_banner_clock w self) as [Hbc Hbf].
  unfold bind at 1.
  destruct (run_banner (w, self)) as [[w1 self1] r1]. cbn [fst snd] in *.
  subst r1 self1.
  unfold bind at 1. unfold get_self at 1. cbn [snd]. rewrite Hps.
  pose proof (run_phases_steps ps (w1, self) (length ps) (le_n _)) as Hsteps.
  rewrite firstn_all in Hsteps.
  pose proof (loop_step_files _ _ _ _ _ Hsteps) as Hfiles.
  pose proof (loop_step_clock _ _ _ _ _ Hsteps) as Hclock.
  apply (loop_step_inv _ _ _ _ _ _ Hout Hnd) in Hsteps.
  destruct Hsteps as (hist & reqs & Ha & Hs & Hr).
  rewrite Hb2 in Ha.
  unfold bind at 1.
  destruct (run_phases ps (w1, self)) as [[w2 self2] [[]|e|c]]; cbn [fst snd] in *.
  - destruct Hr as [Hlen Hreq]. subst self2.
    assert (Hh : map fst hist = ps).
    { rewrite (answered_phases _ _ _ _ _ Ha), Hlen. apply firstn_all. }
    assert (Hc : complete (self_at self hist)).
    { apply complete_self_at. cbn [scenario self_at set_outputs]. congruence. }
    destruct (total_print_summary _ Hc w2) as [[] Hp].
    destruct (print_summary (w2, self_at self hist)) as [[w3 self3] r3] eqn:Hsum.
    cbn [snd] in Hp. subst r3.
    destruct (quiet_print_summary (w2, self_at self hist)) as [(Hq1 & Hq2 & _) _].
    rewrite Hsum in Hq1, Hq2. cbn [fst snd] in *. subst self3.
    destruct (print_summary_file _ _ _ Hsum) as (_ & n & Hn & Hmem).
    cbn [fst snd self_at set_outputs scenario_type] in *.
    exists hist, reqs, w3, (Normal tt). split; [reflexivity|]. split; [exact Ha|].
    split; [exact Hh|]. split; [congruence|].
    exists n. split; [lia | exact Hmem].
  - destruct Hr as (Hlen & p & pre & Hp & Hreq & Hc & Hso). subst self2.
    exists hist, reqs, w2, (Raised e). split; [reflexivity|]. split; [exact Ha|].
    split; [exact Hlen|]. exists p, pre. rewrite <- Hb2.
    repeat split; auto; congruence.
  - contradiction.
Qed.

(* ================================================================== *)
(** ** The scenario table, the constructor and the handler *)

Lemma distinctb_NoDup (l : list string) : distinctb l = true -> NoDup l.
Proof.
  induction l as [|x l IH]; simpl; intros H; constructor.
  - apply andb_prop in H. destruct H as [H _].
    intros Hin. apply negb_true_iff in H.
    assert (existsb (String.eqb x) l = true); [|congruence].
    apply existsb_exists. exists x. split; [exact Hin | apply String.eqb_refl].
  - apply andb_prop in H. tauto.
Qed.

Lemma scenario_lookup_In sid t sc :
  scenario_lookup sid t = Some sc -> In sc (map snd t).
Proof.
  induction t as [|[k s] t IH]; simpl; [discriminate|].
  destruct (String.eqb k sid); [intros [= ->]; now left | right; auto].
Qed.

(** A check run over the table holds of every scenario looked up in it. *)
Lemma table_forall (P : scenario_t -> bool) sid sc :
  forallb P (map snd SCENARIOS) = true ->
  scenario_lookup sid SCENARIOS = Some sc -> P sc = true.
Proof.
  intros HP Hl. apply scenario_lookup_In in Hl.
  exact (proj1 (forallb_forall P _) HP sc Hl).
Qed.

Lemma table_distinct_keys sid sc :
  scenario_lookup sid SCENARIOS = Some sc -> NoDup (map pkey (phases sc)).
Proof.
  intros H. apply distinctb_NoDup.
  apply (table_forall (fun sc => distinctb (map pkey (phases sc))) sid sc);
    [vm_compute; reflexivity | exact H].
Qed.

Lemma table_four_phases sid sc :
  scenario_lookup sid SCENARIOS = Some sc -> length (phases sc) = 4.
Proof.
  intros H. apply Nat.eqb_eq.
  apply (table_forall (fun sc => Nat.eqb (length (phases sc)) 4) sid sc);
    [vm_compute; reflexivity | exact H].
Qed.

Lemma init_eq sid topic w :
  init sid topic w =
  if validate_setup Config then
    match scenario_lookup sid SCENARIOS with
    | Some sc => (w, Normal (new_workflow sid sc topic))
    | None =>
        (with_stdout
           (fun o => append_item
                       (append_item o ("ERROR: Unknown scenario type '" ++ sid ++ "'" ++ NL))
                       ("Available scenarios: " ++ join ", " (map fst SCENARIOS) ++ NL)) w,
         SystemExit 1%Z)
    end
  else
    (with_stdout (fun o => append_item o ("ERROR: Configuration validation failed!" ++ NL)) w,
     SystemExit 1%Z).
Proof.
  unfold init. destruct (validate_setup Config).
  - unfold bind at 1. unfold ret at 1.
    destruct (scenario_lookup sid SCENARIOS) as [sc|]; [reflexivity|].
    unfold bind, print, exit, with_stdout. cbn [stdout stderr requests files clock_reads stdin].
    now rewrite !append_assoc.
  - reflexivity.
Qed.

Lemma handler_eq e w : handler e w = (world_handled e w, Normal tt).
Proof.
  unfold handler, bind, print, print_exc, world_handled, handler_lines, with_stdout,
    append_item.
  cbn [stdout stderr requests files clock_reads stdin].
  repeat rewrite <- app_assoc. cbn [app].
  now rewrite !append_assoc.
Qed.

(** The [try] statement on an accepted configuration and a scenario of
    the table: the success line after a run that ends normally, the
    handler after one that raises. *)
Lemma main_try_eq sid sc topic w :
  validate_setup Config = true ->
  scenario_lookup sid SCENARIOS = Some sc ->
  main_try sid topic w =
  match run (w, new_workflow sid sc topic) with
  | (s', Normal _) =>
      (with_stdout (fun o => append_item o (success_line ++ NL)) (fst s'), Normal tt)
  | (s', Raised e) => (world_handled e (fst s'), Normal tt)
  | (s', SystemExit c) => (fst s', SystemExit c)
  end.
Proof.
  intros Hv Hl. unfold main_try, try_except.
  unfold bind at 1. rewrite init_eq, Hv, Hl.
  unfold bind at 1. unfold call_on.
  destruct (run (w, new_workflow sid sc topic)) as [s' [[]|e|c]]; cbn [fst snd].
  - reflexivity.
  - apply handler_eq.
  - reflexivity.
Qed.

(* ================================================================== *)
(** ** The requests of a run *)

Lemma answered_req ps n0 self0 hist reqs j req :
  answered ps n0 self0 hist reqs ->
  nth_error reqs j = Some req ->
  exists p o,
    nth_error hist j = Some (p, o) /\
    nth_error ps j = Some p /\
    req = phase_request (self_at self0 (firstn j hist)) (S j) p /\
    client (n0 + j) req = inr o.
Proof.
  intros Ha Hj.
  assert (Hlt : j < length hist).
  { rewrite <- (answered_length _ _ _ _ _ Ha). apply nth_error_Some. congruence. }
  destruct (nth_error hist j) as [[p o]|] eqn:Hh;
    [|apply nth_error_None in Hh; lia].
  destruct (answered_nth _ _ _ _ _ Ha _ _ _ Hh) as (H1 & H2 & H3).
  exists p, o. rewrite H2 in Hj. injection Hj as <-. auto.
Qed.

(** The client's answers determine the history: of two histories of the
    same start, the shorter is the beginning of the longer. *)
Lemma answered_prefix ps n0 self0 hist reqs :
  answered ps n0 self0 hist reqs ->
  forall hist' reqs',
    answered ps n0 self0 hist' reqs' ->
    length hist <= length hist' ->
    hist = firstn (length hist) hist'.
Proof.
  induction 1 as [|hist reqs p text Ha IH Hp Hc]; intros hist' reqs' Ha' Hlen.
  - reflexivity.
  - rewrite last_length in *.
    assert (Hh : hist = firstn (length hist) hist') by (apply (IH _ _ Ha'); lia).
    destruct (nth_error hist' (length hist)) as [[q o]|] eqn:Hq;
      [|apply nth_error_None in Hq; lia].
    destruct (answered_nth _ _ _ _ _ Ha' _ _ _ Hq) as (H1 & _ & H3).
    rewrite <- Hh in H3.
    assert (q = p) by congruence. subst q.
    assert (o = text) by congruence. subst o.
    rewrite (firstn_snoc _ _ _ Hq). now rewrite <- Hh.
Qed.

Lemma user_content_request self i p :
  user_content (phase_request self i p) = build_user_message self i p.
Proof. reflexivity. Qed.

(** The [j]-th request a run sends (counted from 0) is the request of
    phase [j+1], built from the object that holds the first [j] answers;
    it was answered if [j] answers are not all there are, and it is the
    call that failed otherwise. *)
Lemma run_request ps w self hist reqs w' r j req :
  answered ps (length (requests w)) self hist reqs ->
  run_outcome ps w self hist reqs w' r ->
  nth_error (requests w') (length (requests w) + j) = Some req ->
  exists p,
    nth_error ps j = Some p /\
    req = phase_request (self_at self (firstn j hist)) (S j) p /\
    ((exists o, nth_error hist j = Some (p, o) /\
                client (length (requests w) + j) req = inr o)
     \/ (j = length hist /\
         exists e, r = Raised e /\ client (length (requests w) + j) req = inl e)).
Proof.
  intros Ha Hr Hj.
  pose proof (answered_length _ _ _ _ _ Ha) as Hlen.
  assert (Hans : forall rest, nth_error (reqs ++ rest) j = Some req -> j < length hist ->
            exists p, nth_error ps j = Some p /\
              req = phase_request (self_at self (firstn j hist)) (S j) p /\
              ((exists o, nth_error hist j = Some (p, o) /\
                          client (length (requests w) + j) req = inr o)
               \/ (j = length hist /\
                   exists e, r = Raised e /\ client (length (requests w) + j) req = inl e))).
  { intros rest Hn Hlt. rewrite nth_error_app1 in Hn by lia.
    destruct (answered_req _ _ _ _ _ _ _ Ha Hn) as (p & o & H1 & H2 & H3 & H4).
    exists p. split; [exact H2|]. split; [exact H3|]. left. now exists o. }
  destruct r as [[]|e|c]; cbn [run_outcome] in Hr.
  - destruct Hr as (_ & Hreq & _). rewrite Hreq in Hj.
    rewrite nth_error_app2, Nat.add_comm, Nat.add_sub in Hj by lia.
    apply (Hans []); [now rewrite app_nil_r|].
    rewrite <- Hlen. apply nth_error_Some. congruence.
  - destruct Hr as (_ & p & pre & Hp & Hreq & Hc & _). rewrite Hreq in Hj.
    rewrite nth_error_app2, Nat.add_comm, Nat.add_sub in Hj by lia.
    destruct (Nat.lt_ge_cases j (length hist)) as [Hlt|Hge].
    + now apply (Hans _ Hj).
    + assert (j < length (reqs ++ [phase_request (self_at self hist) (S (length hist)) p])%list)
        by (apply nth_error_Some; congruence).
      rewrite last_length in *.
      assert (j = length hist) as -> by lia.
      rewrite nth_error_app2, Hlen, Nat.sub_diag in Hj by lia.
      simpl in Hj. injection Hj as <-.
      exists p. rewrite firstn_all. repeat split; auto.
      right. split; [reflexivity|]. now exists e.
  - contradiction.
Qed.

(** A run of a scenario of the table, in the terms of [run_spec]. *)
Lemma run_table sid sc topic w :
  scenario_lookup sid SCENARIOS = Some sc ->
  exists hist reqs w' r,
    run (w, new_workflow sid sc topic)
    = ((w', self_at (new_workflow sid sc topic) hist), r) /\
    answered (phases sc) (length (requests w)) (new_workflow sid sc topic) hist reqs /\
    run_outcome (phases sc) w (new_workflow sid sc topic) hist reqs w' r.
Proof.
  intros Hl. apply run_spec; [reflexivity | reflexivity |].
  now apply (table_distinct_keys sid).
Qed.

(** The message of the [j]-th request of a run (counted from 0): it is
    laid out by [message_layout] over the first [j] phases and the texts
    the object holds for them when the run ends. *)
Lemma run_message sid sc topic w w' self' r j req :
  scenario_lookup sid SCENARIOS = Some sc ->
  run (w, new_workflow sid sc topic) = ((w', self'), r) ->
  nth_error (requests w') (length (requests w) + j) = Some req ->
  exists hist p,
    length hist = j /\
    map fst hist = firstn j (phases sc) /\
    nth_error (phases sc) j = Some p /\
    Forall (fun po => PyDict.get (phase_key (name (fst po))) (outputs self') = Some (snd po))
           hist /\
    user_content req = message_layout topic hist p.
Proof.
  intros Hl Hrun Hj.
  destruct (run_table sid sc topic w Hl) as (hist & reqs & w2 & r2 & Hrun2 & Ha & Hr).
  rewrite Hrun in Hrun2. injection Hrun2 as <- -> <-.
  destruct (run_request _ _ _ _ _ _ _ _ _ Ha Hr Hj) as (p & Hp & Hreq & Hcase).
  pose proof (answered_phases _ _ _ _ _ Ha) as Hph.
  assert (Hle : j <= length hist).
  { destruct Hcase as [(o & Ho & _)|(-> & _)]; [|lia].
    apply Nat.lt_le_incl. apply nth_error_Some. congruence. }
  assert (Hlen : length (firstn j hist) = j) by (rewrite length_firstn; lia).
  assert (Hfst : map fst (firstn j hist) = firstn j (phases sc)).
  { rewrite <- firstn_map, Hph, firstn_firstn. f_equal. lia. }
  exists (firstn j hist), p. repeat split; auto.
  - apply Forall_forall. intros [q o] Hin.
    cbn [fst snd self_at set_outputs outputs]. fold (pkey q).
    apply get_stored.
    + rewrite Hph. apply NoDup_map_firstn. now apply (table_distinct_keys sid).
    + rewrite <- (firstn_skipn j hist). apply in_or_app. now left.
  - rewrite Hreq, user_content_request.
    rewrite <- Hlen at 2.
    rewrite (build_user_message_at (phases sc)); auto.
    + now apply (table_distinct_keys sid).
    + now rewrite Hlen.
Qed.

(* ================================================================== *)
(** ** The message sent for a phase *)

(** C1.  In a run of a scenario of the table, the user message sent for
    phase [i > 1] contains, one after the other and in the order of the
    scenario, an entry for every phase 1..i-1: the phase's display name
    followed by the full text stored for it in the output mapping.  No
    earlier phase is left out and none is moved; the entries are followed
    by an empty line and the prompt of phase [i]. *)
Theorem prior_outputs_in_message sid sc tp w w' self' r i req :
  scenario_lookup sid SCENARIOS = Some sc ->
  run (w, new_workflow sid sc tp) = ((w', self'), r) ->
  1 < i ->
  nth_error (requests w') (length (requests w) + (i - 1)) = Some req ->
  exists (hist : list (phase * string)) (p : phase) (pre : string),
    map fst hist = firstn (i - 1) (phases sc) /\
    nth_error (phases sc) (i - 1) = Some p /\
    Forall (fun po => PyDict.get (phase_key (name (fst po))) (outputs self') = Some (snd po))
           hist /\
    user_content req =
      pre ++ flat (map (fun po => NL ++ name (fst po) ++ ":" ++ NL ++ snd po ++ NL) hist)
          ++ NL ++ prompt p.
Proof.
  intros Hl Hrun Hi Hreq.
  destruct (run_message _ _ _ _ _ _ _ _ _ Hl Hrun Hreq)
    as (hist & p & Hlen & Hfst & Hp & Hst & Hmsg).
  exists hist, p, ((if truthy tp then topic_prefix tp else "") ++ context_header).
  split; [exact Hfst|]. split; [exact Hp|]. split; [exact Hst|].
  rewrite Hmsg. unfold message_layout, context_block.
  destruct hist as [|x hist]; [simpl in Hlen; lia|].
  fold entry.
  now rewrite !append_assoc.
Qed.

(** C10.  For phase [i > 1] the user message is exactly: the line
    [Topic/Product: <topic>] and an empty line when the topic is not
    empty; two line feeds and the header line [Previous Phase Results:];
    for each earlier phase, in order, an empty line, the display name
    followed by a colon on a line of its own, and the stored text; an
    empty line; the prompt of phase [i]. *)
Theorem message_exact_layout sid sc tp w w' self' r i req :
  scenario_lookup sid SCENARIOS = Some sc ->
  run (w, new_workflow sid sc tp) = ((w', self'), r) ->
  1 < i ->
  nth_error (requests w') (length (requests w) + (i - 1)) = Some req ->
  exists (hist : list (phase * string)) (p : phase),
    map fst hist = firstn (i - 1) (phases sc) /\
    nth_error (phases sc) (i - 1) = Some p /\
    Forall (fun po => PyDict.get (phase_key (name (fst po))) (outputs self') = Some (snd po))
           hist /\
    user_content req =
      (if truthy tp then "Topic/Product: " ++ tp ++ NL ++ NL else "")
      ++ (NL ++ NL ++ "Previous Phase Results:" ++ NL
          ++ flat (map (fun po => NL ++ name (fst po) ++ ":" ++ NL ++ snd po ++ NL) hist))
      ++ NL ++ prompt p.
Proof.
  intros Hl Hrun Hi Hreq.
  destruct (run_message _ _ _ _ _ _ _ _ _ Hl Hrun Hreq)
    as (hist & p & Hlen & Hfst & Hp & Hst & Hmsg).
  exists hist, p.
  split; [exact Hfst|]. split; [exact Hp|]. split; [exact Hst|].
  rewrite Hmsg. unfold message_layout, context_block, context_header, topic_prefix.
  destruct hist as [|x hist]; [simpl in Hlen; lia|].
  fold entry.
  destruct (truthy tp); now rewrite !append_assoc.
Qed.

(* ================================================================== *)
(** ** The output mapping *)

Lemma keys_self_at self hist :
  PyDict.keys (outputs (self_at self hist))
  = map (fun q => phase_key (name q)) (map fst hist).
Proof. cbn [self_at set_outputs outputs]. apply keys_stored. Qed.

(** The state the loop is in after [k] turns that all ended normally. *)
Lemma loop_after sid sc tp w k wk selfk :
  scenario_lookup sid SCENARIOS = Some sc ->
  k <= length (phases sc) ->
  run_phases (firstn k (phases sc)) (w, new_workflow sid sc tp) = ((wk, selfk), Normal tt) ->
  exists hist reqs,
    answered (phases sc) (length (requests w)) (new_workflow sid sc tp) hist reqs /\
    selfk = self_at (new_workflow sid sc tp) hist /\
    length hist = k /\
    requests wk = (requests w ++ reqs)%list.
Proof.
  intros Hl Hk Hrun.
  pose proof (run_phases_steps (phases sc) (w, new_workflow sid sc tp) k Hk) as Hs.
  rewrite Hrun in Hs. cbn [fst snd] in Hs.
  apply loop_step_inv in Hs;
    [|reflexivity | now apply (table_distinct_keys sid)].
  destruct Hs as (hist & reqs & Ha & Hself & Hlen & Hreq).
  exists hist, reqs. auto.
Qed.

(** C9.  The invariant of the loop of [run].  The mapping of a new
    object is empty.  When the turn for phase [k+1] begins, after [k]
    turns that ended normally, the mapping holds exactly the keys of
    phases 1..k, in order, and not yet the key of phase [k+1].  The turn
    then appends one entry, the key of phase [k+1] with the client's
    answer, and leaves the entries before it as they are; when the call
    fails it leaves the mapping untouched. *)
Theorem loop_invariant sid sc tp w k p wk selfk :
  scenario_lookup sid SCENARIOS = Some sc ->
  nth_error (phases sc) k = Some p ->
  run_phases (firstn k (phases sc)) (w, new_workflow sid sc tp) = ((wk, selfk), Normal tt) ->
  outputs (new_workflow sid sc tp) = [] /\
  PyDict.keys (outputs selfk) = map (fun q => phase_key (name q)) (firstn k (phases sc)) /\
  PyDict.get (phase_key (name p)) (outputs selfk) = None /\
  match execute_phase (S k) p (wk, selfk) with
  | (s', Normal _) =>
      exists text,
        client (length (requests wk)) (phase_request selfk (S k) p) = inr text /\
        outputs (snd s') = (outputs selfk ++ [(phase_key (name p), text)])%list
  | (s', _) => outputs (snd s') = outputs selfk
  end.
Proof.
  intros Hl Hp Hrun.
  assert (Hk : k <= length (phases sc)).
  { apply Nat.lt_le_incl. apply nth_error_Some. congruence. }
  destruct (loop_after _ _ _ _ _ _ _ Hl Hk Hrun) as (hist & reqs & Ha & -> & Hlen & Hreq).
  pose proof (answered_phases _ _ _ _ _ Ha) as Hph. rewrite Hlen in Hph.
  assert (Hfresh : PyDict.get (phase_key (name p))
                     (outputs (self_at (new_workflow sid sc tp) hist)) = None).
  { cbn [self_at set_outputs outputs]. fold (pkey p).
    apply (next_key_fresh (phases sc)).
    - now apply (table_distinct_keys sid).
    - now rewrite Hlen.
    - now rewrite Hlen. }
  split; [reflexivity|]. split; [|split].
  - now rewrite keys_self_at, Hph.
  - exact Hfresh.
  - rewrite execute_phase_eq.
    destruct (client (length (requests wk))
                (phase_request (self_at (new_workflow sid sc tp) hist) (S k) p))
      as [e|text]; cbn [snd].
    + reflexivity.
    + exists text. split; [reflexivity|].
      cbn [outputs set_outputs self_at] in *.
      now apply set_fresh.
Qed.

(** C2.  When the client answers every call, a run of a scenario of the
    table ends normally with a mapping of exactly as many entries as the
    scenario has phases: one per phase, under the phase's key, in the
    order of the phases, the keys distinct.  During the run the mapping
    only grows at its end: after [k] turns of the loop it is the first
    [k] entries of the final mapping. *)
Theorem run_fills_outputs sid sc tp w :
  scenario_lookup sid SCENARIOS = Some sc ->
  (forall n req, exists text, client n req = inr text) ->
  exists w' self',
    run (w, new_workflow sid sc tp) = ((w', self'), Normal tt) /\
    length (outputs self') = length (phases sc) /\
    PyDict.keys (outputs self') = map (fun p => phase_key (name p)) (phases sc) /\
    NoDup (PyDict.keys (outputs self')) /\
    forall k, k <= length (phases sc) ->
      exists wk selfk,
        run_phases (firstn k (phases sc)) (fst (run_banner (w, new_workflow sid sc tp)))
        = ((wk, selfk), Normal tt) /\
        outputs selfk = firstn k (outputs self').
Proof.
  intros Hl Hok.
  destruct (run_table sid sc tp w Hl) as (hist & reqs & w' & r & Hrun & Ha & Hr).
  destruct r as [[]|e|c]; cbn [run_outcome] in Hr.
  2:{ destruct Hr as (_ & p & pre & _ & _ & Hc & _).
      destruct (Hok (length (requests w) + length hist)
                    (phase_request (self_at (new_workflow sid sc tp) hist)
                                   (S (length hist)) p)) as [text Ht].
      congruence. }
  2:{ contradiction. }
  destruct Hr as (Hfst & Hreq & _).
  exists w', (self_at (new_workflow sid sc tp) hist).
  split; [exact Hrun|]. split; [|split; [|split]].
  - cbn [self_at set_outputs outputs]. now rewrite length_map, <- Hfst, length_map.
  - now rewrite keys_self_at, Hfst.
  - rewrite keys_self_at, Hfst. now apply (table_distinct_keys sid).
  - intros k Hk.
    destruct (quiet_run_banner (w, new_workflow sid sc tp)) as [(Hb1 & Hb2 & _) _].
    destruct (run_banner (w, new_workflow sid sc tp)) as [[w1 self1] r1].
    cbn [fst snd] in *. subst self1.
    pose proof (run_phases_steps (phases sc) (w1, new_workflow sid sc tp) k Hk) as Hs.
    apply loop_step_inv in Hs;
      [|reflexivity | now apply (table_distinct_keys sid)].
    destruct Hs as (histk & reqsk & Hak & Hself & Hcase).
    rewrite Hb2 in Hak.
    destruct (run_phases (firstn k (phases sc)) (w1, new_workflow sid sc tp))
      as [[wk selfk] [[]|e|c]]; cbn [fst snd] in *.
    + destruct Hcase as [Hlen _].
      exists wk, selfk. split; [reflexivity|].
      subst selfk. cbn [self_at set_outputs outputs].
      rewrite firstn_map. f_equal.
      rewrite <- Hlen. apply (answered_prefix _ _ _ _ _ Hak _ _ Ha).
      rewrite Hlen. apply (f_equal (@length phase)) in Hfst.
      rewrite length_map in Hfst. lia.
    + destruct Hcase as (_ & p & pre & _ & _ & Hc & _).
      destruct (Hok (length (requests w1) + length histk)
                    (phase_request (self_at (new_workflow sid sc tp) histk)
                                   (S (length histk)) p)) as [text Ht].
      congruence.
    + contradiction.
Qed.

(* ================================================================== *)
(** ** A call that fails *)

(** C4.  When the call for phase [k+1] fails with [e], the run ends with
    [e] raised and this call is the last one made.  The mapping then
    holds exactly the keys of phases 1..k: the keys of phase [k+1] and of
    all later phases are absent, and every earlier phase still has the
    text the client answered for it. *)
Theorem failure_stops_run sid sc tp w w' self' r k req e :
  scenario_lookup sid SCENARIOS = Some sc ->
  run (w, new_workflow sid sc tp) = ((w', self'), r) ->
  nth_error (requests w') (length (requests w) + k) = Some req ->
  client (length (requests w) + k) req = inl e ->
  r = Raised e /\
  length (requests w') = length (requests w) + S k /\
  PyDict.keys (outputs self') = map (fun q => phase_key (name q)) (firstn k (phases sc)) /\
  (forall j q, k <= j -> nth_error (phases sc) j = Some q ->
     PyDict.get (phase_key (name q)) (outputs self') = None) /\
  (forall j q, j < k -> nth_error (phases sc) j = Some q ->
     exists reqj text,
       nth_error (requests w') (length (requests w) + j) = Some reqj /\
       client (length (requests w) + j) reqj = inr text /\
       PyDict.get (phase_key (name q)) (outputs self') = Some text).
Proof.
  intros Hl Hrun Hreq Hfail.
  destruct (run_table sid sc tp w Hl) as (hist & reqs & w2 & r2 & Hrun2 & Ha & Hr).
  rewrite Hrun in Hrun2. injection Hrun2 as <- -> <-.
  destruct (run_request _ _ _ _ _ _ _ _ _ Ha Hr Hreq) as (p & Hp & Hrq & Hcase).
  destruct Hcase as [(o & _ & Ho)|(-> & e' & -> & He)]; [congruence|].
  assert (e' = e) by congruence. subst e'.
  cbn [run_outcome] in Hr.
  destruct Hr as (Hlt & p' & pre & Hp' & Hreqs & _).
  pose proof (answered_phases _ _ _ _ _ Ha) as Hph.
  pose proof (answered_length _ _ _ _ _ Ha) as Hlen.
  pose proof (table_distinct_keys sid sc Hl) as Hnd.
  split; [reflexivity|]. split; [|split; [|split]].
  - rewrite Hreqs, !length_app. simpl. lia.
  - now rewrite keys_self_at, Hph.
  - intros j q Hj Hq. apply get_None_keys.
    rewrite keys_self_at, Hph, <- firstn_map.
    apply (NoDup_firstn_later _ _ j); auto.
    unfold pkey in *. now rewrite nth_error_map, Hq.
  - intros j q Hj Hq.
    destruct (nth_error hist j) as [[q' o]|] eqn:Hh;
      [|apply nth_error_None in Hh; lia].
    destruct (answered_nth _ _ _ _ _ Ha _ _ _ Hh) as (H1 & H2 & H3).
    assert (q' = q) by congruence. subst q'.
    exists (phase_request (self_at (new_workflow sid sc tp) (firstn j hist)) (S j) q), o.
    split; [|split].
    + rewrite Hreqs, nth_error_app2, Nat.add_comm, Nat.add_sub by lia.
      rewrite nth_error_app1 by lia. exact H2.
    + exact H3.
    + cbn [self_at set_outputs outputs]. fold (pkey q).
      apply get_stored.
      * rewrite Hph. now apply NoDup_map_firstn.
      * now apply (nth_error_In _ j).
Qed.

(* ================================================================== *)
(** ** The storage key *)

Lemma smap_smap f g s : smap f (smap g s) = smap (fun c => f (g c)) s.
Proof. induction s as [|c s IH]; simpl; [reflexivity | now rewrite IH]. Qed.

Lemma smap_ext f g s : (forall c, f c = g c) -> smap f s = smap g s.
Proof.
  intros H. induction s as [|c s IH]; simpl; [reflexivity | now rewrite H, IH].
Qed.

Lemma phase_key_smap nm : phase_key nm = smap key_char nm.
Proof.
  unfold phase_key, replace, lower. rewrite smap_smap.
  apply smap_ext. reflexivity.
Qed.

Lemma key_char_idem c : key_char (key_char c) = key_char c.
Proof. destruct c as [[] [] [] [] [] [] [] []]; reflexivity. Qed.

Lemma phase_key_idem nm : phase_key (phase_key nm) = phase_key nm.
Proof.
  rewrite !phase_key_smap, smap_smap. apply smap_ext, key_char_idem.
Qed.

Lemma NoDup_map_eq {A B} (f : A -> B) (l : list A) x y :
  NoDup (map f l) -> In x l -> In y l -> f x = f y -> x = y.
Proof.
  induction l as [|a l IH]; simpl; intros Hnd Hx Hy Hf; [contradiction|].
  inversion Hnd as [|? ? Ha Hnd']; subst.
  destruct Hx as [->|Hx], Hy as [->|Hy]; auto.
  - exfalso. apply Ha. rewrite Hf. now apply in_map.
  - exfalso. apply Ha. rewrite <- Hf. now apply in_map.
Qed.

(** C7.  The storage key is the phase name in lower case with every
    space replaced by an underscore.  It is a function of the name, and
    taking the key of a key changes nothing.  Within each scenario of the
    table, phases with different names have different keys.  The place
    that stores an answer and the place that reads the earlier answers
    use the same key: what [execute_phase] stored for a phase is what
    [add_context] renders for it. *)
Theorem phase_key_properties :
  (forall nm, phase_key nm = replace " " "_" (lower nm)) /\
  (forall nm nm', nm = nm' -> phase_key nm = phase_key nm') /\
  (forall nm, phase_key (phase_key nm) = phase_key nm) /\
  (forall sid sc p q,
      scenario_lookup sid SCENARIOS = Some sc ->
      In p (phases sc) -> In q (phases sc) ->
      name p <> name q -> phase_key (name p) <> phase_key (name q)) /\
  (forall i p w self s',
      execute_phase i p (w, self) = (s', Normal tt) ->
      exists text,
        client (length (requests w)) (phase_request self i p) = inr text /\
        PyDict.get (phase_key (name p)) (outputs (snd s')) = Some text /\
        forall ctx,
          add_context (outputs (snd s')) ctx p
          = ctx ++ NL ++ name p ++ ":" ++ NL ++ text ++ NL).
Proof.
  split; [reflexivity|]. split; [now intros nm nm' ->|].
  split; [exact phase_key_idem|]. split.
  - intros sid sc p q Hl Hp Hq Hne Hk. apply Hne. f_equal.
    apply (NoDup_map_eq pkey (phases sc)); auto.
    now apply (table_distinct_keys sid).
  - intros i p w self s' H. rewrite execute_phase_eq in H.
    destruct (client (length (requests w)) (phase_request self i p)) as [e|text];
      [discriminate|].
    injection H as <-. cbn [snd outputs set_outputs].
    exists text. split; [reflexivity|].
    split; [apply get_set_same|].
    intros ctx. unfold add_context. now rewrite get_set_same.
Qed.

(* ================================================================== *)
(** ** The topic line *)

Lemma prefix_app_nl p : 
  has_char newline p = false ->
  forall a b, prefix p (a ++ String newline b) = prefix p a.
Proof.
  induction p as [|c p IH]; intros Hp a b.
  - now destruct a.
  - simpl in Hp. apply orb_false_elim in Hp. destruct Hp as [Hc Hp].
    destruct a as [|x a]; simpl.
    + destruct (ascii_dec c newline) as [->|]; [|reflexivity].
      now rewrite Ascii.eqb_refl in Hc.
    + destruct (ascii_dec c x); [now apply IH | reflexivity].
Qed.

(** A text that holds no line feed occurs in two lines joined by a line
    feed only if it occurs in one of them. *)
Lemma occurs_app_nl p a b :
  has_char newline p = false -> p <> "" ->
  occurs p (a ++ String newline b) = occurs p a || occurs p b.
Proof.
  intros Hp Hne. induction a as [|x a IH].
  - cbn [append occurs].
    replace (prefix p (String newline b)) with (prefix p "")
      by (symmetry; apply (prefix_app_nl p Hp "" b)).
    destruct p; [contradiction | reflexivity].
  - cbn [append occurs]. rewrite IH.
    change (String x (a ++ String newline b)) with ((String x a) ++ String newline b).
    rewrite (prefix_app_nl p Hp). now rewrite orb_assoc.
Qed.

Lemma occurs_app_NL p a b :
  has_char newline p = false -> p <> "" ->
  occurs p (a ++ NL ++ b) = occurs p a || occurs p b.
Proof. intros. unfold NL. cbn [append]. now apply occurs_app_nl. Qed.

Lemma occurs_empty p : p <> "" -> occurs p "" = false.
Proof. destruct p; [contradiction | reflexivity]. Qed.

Lemma marker_line : has_char newline topic_marker = false /\ topic_marker <> "".
Proof. split; [reflexivity | discriminate]. Qed.

(** The marker occurs in the rendered entries only inside a stored text,
    when it occurs in no display name. *)
Lemma occurs_entries (hist : list (phase * string)) (rest : string) :
  Forall (fun po => occurs topic_marker (name (fst po) ++ ":") = false) hist ->
  occurs topic_marker (flat (map entry hist) ++ rest)
  = existsb (fun po => occurs topic_marker (snd po)) hist || occurs topic_marker rest.
Proof.
  destruct marker_line as [Hnl Hne].
  induction 1 as [|[q o] hist Hq _ IH]; [reflexivity|].
  cbn [map flat existsb fst snd] in *.
  replace ((entry (q, o) ++ flat (map entry hist)) ++ rest)
    with ("" ++ NL ++ (name q ++ ":") ++ NL ++ o ++ NL ++ (flat (map entry hist) ++ rest))
    by (unfold entry; cbn [fst snd]; now str_norm).
  rewrite !occurs_app_NL by assumption.
  rewrite IH, Hq, (occurs_empty _ Hne). cbn [orb]. now rewrite orb_assoc.
Qed.

Lemma table_marker_free sid sc :
  scenario_lookup sid SCENARIOS = Some sc -> marker_free sc = true.
Proof.
  apply (table_forall marker_free). vm_compute. reflexivity.
Qed.

Lemma marker_free_phase sc p :
  marker_free sc = true -> In p (phases sc) ->
  occurs topic_marker (name p ++ ":") = false /\ occurs topic_marker (prompt p) = false.
Proof.
  intros H Hp. unfold marker_free in H.
  apply (proj1 (forallb_forall _ _) H) in Hp.
  apply andb_prop in Hp. destruct Hp as [H1 H2].
  now rewrite negb_true_iff in H1, H2.
Qed.

(** Without a topic, the marker occurs in a message only inside the
    stored text of an earlier phase. *)
Lemma occurs_layout sc (hist : list (phase * string)) p :
  marker_free sc = true ->
  (forall po, In po hist -> In (fst po) (phases sc)) ->
  In p (phases sc) ->
  occurs topic_marker (message_layout "" hist p)
  = existsb (fun po => occurs topic_marker (snd po)) hist.
Proof.
  intros Hfree Hin Hp.
  destruct marker_line as [Hnl Hne].
  destruct (marker_free_phase _ _ Hfree Hp) as [_ Hprompt].
  unfold message_layout. cbn [truthy append].
  destruct hist as [|x hist]; [exact Hprompt|].
  remember (x :: hist) as h.
  replace ((context_block h ++ NL) ++ prompt p)
    with ("" ++ NL ++ "" ++ NL ++ "Previous Phase Results:" ++ NL
            ++ (flat (map entry h) ++ ("" ++ NL ++ prompt p)))
    by (unfold context_block, context_header; now str_norm).
  rewrite !occurs_app_NL by assumption.
  rewrite occurs_entries.
  - rewrite !occurs_app_NL by assumption.
    rewrite Hprompt, (occurs_empty _ Hne).
    replace (occurs topic_marker "Previous Phase Results:") with false by reflexivity.
    cbn [orb]. now rewrite !orb_false_r.
  - apply Forall_forall. intros po Hpo.
    now destruct (marker_free_phase _ _ Hfree (Hin po Hpo)).
Qed.

Lemma occurs_prefix p s : occurs p s = false -> prefix p s = false.
Proof.
  destruct s; cbn [occurs]; intros H; apply orb_false_elim in H; tauto.
Qed.

(** C3, as the program has it.  In a run of a scenario of the table every
    user message begins with the line [Topic/Product: <topic>] and an
    empty line, ahead of the block of earlier results and the prompt,
    when the topic is not empty.  When the topic is empty nothing is put
    in front: the message is the block of earlier results, if any, and the
    prompt; it does not begin with [Topic/Product: ], and that text occurs
    in it only where the stored text of an earlier phase holds it. *)
Theorem topic_line_of_message sid sc tp w w' self' r j req :
  scenario_lookup sid SCENARIOS = Some sc ->
  run (w, new_workflow sid sc tp) = ((w', self'), r) ->
  nth_error (requests w') (length (requests w) + j) = Some req ->
  exists (hist : list (phase * string)) (p : phase),
    map fst hist = firstn j (phases sc) /\
    nth_error (phases sc) j = Some p /\
    Forall (fun po => PyDict.get (phase_key (name (fst po))) (outputs self') = Some (snd po))
           hist /\
    (tp <> "" ->
       user_content req = "Topic/Product: " ++ tp ++ NL ++ NL ++ message_layout "" hist p) /\
    (tp = "" ->
       user_content req = message_layout "" hist p /\
       prefix "Topic/Product: " (user_content req) = false /\
       (occurs "Topic/Product: " (user_content req) = true ->
        Exists (fun po => occurs "Topic/Product: " (snd po) = true) hist)).
Proof.
  intros Hl Hrun Hreq.
  destruct (run_message _ _ _ _ _ _ _ _ _ Hl Hrun Hreq)
    as (hist & p & Hlen & Hfst & Hp & Hst & Hmsg).
  exists hist, p.
  split; [exact Hfst|]. split; [exact Hp|]. split; [exact Hst|].
  assert (Hocc : occurs topic_marker (message_layout "" hist p)
                 = existsb (fun po => occurs topic_marker (snd po)) hist).
  { apply (occurs_layout sc).
    - now apply (table_marker_free sid).
    - intros po Hpo. apply (in_map fst) in Hpo. rewrite Hfst in Hpo.
      rewrite <- (firstn_skipn j (phases sc)). apply in_or_app. now left.
    - now apply (nth_error_In _ j). }
  split.
  - intros Htp. rewrite Hmsg. unfold message_layout at 1.
    destruct tp as [|c tp]; [contradiction|].
    cbn [truthy]. unfold topic_prefix, message_layout. cbn [truthy].
    now str_norm.
  - intros ->. rewrite Hmsg. split; [reflexivity|].
    fold topic_marker. split.
    + destruct hist as [|x hist].
      * apply occurs_prefix. now rewrite Hocc.
      * reflexivity.
    + rewrite Hocc. intros He.
      apply existsb_exists in He. apply Exists_exists. exact He.
Qed.

(* ================================================================== *)
(** ** [main] and its handler *)

Lemma last_handled e w :
  last (stdout (world_handled e w)) ""
  = "4. Ensure config.py can access shared_config from parent directory" ++ NL.
Proof.
  unfold world_handled, handler_lines. cbn [stdout].
  match goal with
  | |- last (?l ++ [?a; ?b; ?c; ?d; ?x; ?y])%list _ = _ =>
      replace (l ++ [a; b; c; d; x; y])%list with ((l ++ [a; b; c; d; x]) ++ [y])%list
        by (now rewrite <- app_assoc)
  end.
  apply last_last.
Qed.

(** What a failed call leaves behind, in the terms of a whole run. *)
Lemma run_failed sid sc tp w w' self' e :
  scenario_lookup sid SCENARIOS = Some sc ->
  run (w, new_workflow sid sc tp) = ((w', self'), Raised e) ->
  exists k p pre,
    nth_error (phases sc) k = Some p /\
    PyDict.keys (outputs self') = map (fun q => phase_key (name q)) (firstn k (phases sc)) /\
    nth_error (requests w') (length (requests w) + k) = Some (phase_request self' (S k) p) /\
    client (length (requests w) + k) (phase_request self' (S k) p) = inl e /\
    stdout w' = (pre ++ banner (S k) p)%list.
Proof.
  intros Hl Hrun.
  destruct (run_table sid sc tp w Hl) as (hist & reqs & w2 & r2 & Hrun2 & Ha & Hr).
  rewrite Hrun in Hrun2. injection Hrun2 as <- -> <-.
  cbn [run_outcome] in Hr. destruct Hr as (_ & p & pre & Hp & Hreqs & Hc & Hso & _).
  exists (length hist), p, pre.
  split; [exact Hp|]. split; [|split; [|split]]; auto.
  - rewrite keys_self_at. now rewrite (answered_phases _ _ _ _ _ Ha).
  - rewrite Hreqs, nth_error_app2, Nat.add_comm, Nat.add_sub by lia.
    rewrite nth_error_app2 by (rewrite (answered_length _ _ _ _ _ Ha); lia).
    rewrite (answered_length _ _ _ _ _ Ha), Nat.sub_diag. reflexivity.
Qed.

Lemma main_try_exit sid tp w w' c :
  init sid tp w = (w', SystemExit c) -> main_try sid tp w = (w', SystemExit c).
Proof.
  intros H. unfold main_try, try_except, bind. now rewrite H.
Qed.

(** C5, as the program has it.  A configuration that does not validate,
    or a scenario id that is not in the table, makes the program print an
    error line and leave with status 1 before any call to the client.
    Otherwise the [try] statement of [main] runs the scenario.  When the
    run ends normally every phase has its entry, the line
    [Workflow completed successfully!] ends the output and the status is
    0.  When a call fails, at phase [k+1], only phases 1..k have entries;
    the handler prints, right after the banner [PHASE k+1: NAME] of that
    phase, the error line with the text of the exception and the
    troubleshooting notes, and the success line is not printed. *)
Theorem main_try_outcomes sid tp w :
  match validate_setup Config, scenario_lookup sid SCENARIOS with
  | false, _ =>
      main_try sid tp w =
        (with_stdout
           (fun o => append_item o ("ERROR: Configuration validation failed!" ++ NL)) w,
         SystemExit 1%Z) /\
      exit_status (snd (main_try sid tp w)) = 1%Z
  | true, None =>
      exit_status (snd (main_try sid tp w)) = 1%Z /\
      requests (fst (main_try sid tp w)) = requests w /\
      stdout (fst (main_try sid tp w)) =
        append_item
          (append_item (stdout w) ("ERROR: Unknown scenario type '" ++ sid ++ "'" ++ NL))
          ("Available scenarios: conference, marketing, research, architecture" ++ NL)
  | true, Some sc =>
      match run (w, new_workflow sid sc tp) with
      | ((w1, self1), Normal _) =>
          PyDict.keys (outputs self1) = map (fun q => phase_key (name q)) (phases sc) /\
          main_try sid tp w =
            (with_stdout (fun o => append_item o (success_line ++ NL)) w1, Normal tt) /\
          last (stdout (fst (main_try sid tp w))) "" = success_line ++ NL /\
          exit_status (snd (main_try sid tp w)) = 0%Z
      | ((w1, self1), Raised e) =>
          (exists k p pre,
              nth_error (phases sc) k = Some p /\
              PyDict.keys (outputs self1)
              = map (fun q => phase_key (name q)) (firstn k (phases sc)) /\
              client (length (requests w) + k) (phase_request self1 (S k) p) = inl e /\
              stdout w1 = (pre ++ banner (S k) p)%list) /\
          stdout (fst (main_try sid tp w)) = (stdout w1 ++ handler_lines e)%list /\
          stderr (fst (main_try sid tp w)) = (stderr w1 ++ [e])%list /\
          last (stdout (fst (main_try sid tp w))) "" <> success_line ++ NL
      | (_, SystemExit _) => False
      end
  end.
Proof.
  destruct (validate_setup Config) eqn:Hv.
  - destruct (scenario_lookup sid SCENARIOS) as [sc|] eqn:Hl.
    + rewrite (main_try_eq sid sc tp w Hv Hl).
      destruct (run (w, new_workflow sid sc tp)) as [[w1 self1] [[]|e|c]] eqn:Hrun;
        cbn [fst snd].
      * destruct (run_table sid sc tp w Hl) as (hist & reqs & w2 & r2 & Hrun2 & Ha & Hr).
        rewrite Hrun in Hrun2. injection Hrun2 as <- -> <-.
        cbn [run_outcome] in Hr. destruct Hr as (Hfst & _).
        split; [now rewrite keys_self_at, Hfst|].
        split; [reflexivity|]. split; [|reflexivity].
        unfold with_stdout, append_item. cbn [stdout]. apply last_last.
      * destruct (run_failed _ _ _ _ _ _ _ Hl Hrun) as (k & p & pre & H1 & H2 & _ & H4 & H5).
        split; [now exists k, p, pre|].
        split; [reflexivity|]. split; [reflexivity|].
        rewrite last_handled. discriminate.
      * destruct (run_table sid sc tp w Hl) as (hist & reqs & w2 & r2 & Hrun2 & Ha & Hr).
        rewrite Hrun in Hrun2. injection Hrun2 as <- -> <-. exact Hr.
    + rewrite (main_try_exit sid tp w _ 1%Z) by (now rewrite init_eq, Hv, Hl).
      split; [reflexivity|]. split; reflexivity.
  - rewrite (main_try_exit sid tp w _ 1%Z) by (now rewrite init_eq, Hv).
    split; reflexivity.
Qed.

(** C6, as the program has it.  When the call for phase [k+1] fails with
    the exception [e], [execute_phase] and [run] let [e] through as it is:
    no retry, no later phase, and nothing attached to it.  [main]
    catches it and prints the line [Error during workflow execution:]
    with the text of [e], then the troubleshooting notes, and the
    traceback of [e] on standard error.  The failing phase shows in the
    output through the banner [PHASE k+1: NAME] printed just before. *)
Theorem failure_reaches_main sid sc tp w w' self' r k req e :
  validate_setup Config = true ->
  scenario_lookup sid SCENARIOS = Some sc ->
  run (w, new_workflow sid sc tp) = ((w', self'), r) ->
  nth_error (requests w') (length (requests w) + k) = Some req ->
  client (length (requests w) + k) req = inl e ->
  r = Raised e /\
  (exists p pre,
      nth_error (phases sc) k = Some p /\
      req = phase_request self' (S k) p /\
      stdout w' = (pre ++ banner (S k) p)%list) /\
  stdout (fst (main_try sid tp w)) = (stdout w' ++ handler_lines e)%list /\
  stderr (fst (main_try sid tp w)) = (stderr w' ++ [e])%list /\
  hd "" (handler_lines e)
  = NL ++ "❌ Error during workflow execution: " ++ str_exn e ++ NL.
Proof.
  intros Hv Hl Hrun Hreq Hfail.
  destruct (run_table sid sc tp w Hl) as (hist & reqs & w2 & r2 & Hrun2 & Ha & Hr).
  rewrite Hrun in Hrun2. injection Hrun2 as <- -> <-.
  destruct (run_request _ _ _ _ _ _ _ _ _ Ha Hr Hreq) as (p & Hp & Hrq & Hcase).
  destruct Hcase as [(o & _ & Ho)|(-> & e' & -> & He)]; [congruence|].
  assert (e' = e) by congruence. subst e'.
  cbn [run_outcome] in Hr. destruct Hr as (_ & p' & pre & Hp' & _ & _ & Hso & _).
  assert (p' = p) by congruence. subst p'.
  rewrite firstn_all in Hrq.
  split; [reflexivity|]. split; [now exists p, pre|].
  rewrite (main_try_eq sid sc tp w Hv Hl), Hrun. cbn [fst snd].
  split; [reflexivity|]. split; [reflexivity|].
  unfold handler_lines, error_line. cbn [hd]. now rewrite !append_assoc.
Qed.

(* ================================================================== *)
(** ** The result file *)

Lemma digit_eq a b : digit a = digit b -> a mod 10 = b mod 10.
Proof.
  unfold digit. intros H. apply (f_equal nat_of_ascii) in H.
  assert (Ha : a mod 10 < 10) by (apply Nat.mod_upper_bound; lia).
  assert (Hb : b mod 10 < 10) by (apply Nat.mod_upper_bound; lia).
  rewrite !nat_ascii_embedding in H by lia. lia.
Qed.

Lemma pad2_inj a b : a < 100 -> b < 100 -> pad2 a = pad2 b -> a = b.
Proof.
  unfold pad2. intros Ha Hb H. injection H as H1 H2.
  apply digit_eq in H1, H2.
  assert (a / 10 < 10) by (apply Nat.Div0.div_lt_upper_bound; lia).
  assert (b / 10 < 10) by (apply Nat.Div0.div_lt_upper_bound; lia).
  rewrite !Nat.mod_small in H1 by assumption.
  change (a / 10 = b / 10) in H1.
  pose proof (Nat.div_mod_eq a 10). pose proof (Nat.div_mod_eq b 10). lia.
Qed.

Lemma four_digits n :
  n < 100 * 100 ->
  n = 1000 * ((n / 1000) mod 10) + 100 * ((n / 100) mod 10)
      + 10 * ((n / 10) mod 10) + n mod 10.
Proof.
  intros Hn.
  assert (E1 : n / 100 = n / 10 / 10) by (now rewrite Nat.Div0.div_div).
  assert (E2 : n / 1000 = n / 10 / 10 / 10) by (now rewrite !Nat.Div0.div_div).
  rewrite E2, E1.
  pose proof (Nat.div_mod_eq n 10) as D1.
  pose proof (Nat.div_mod_eq (n / 10) 10) as D2.
  pose proof (Nat.div_mod_eq (n / 10 / 10) 10) as D3.
  assert (B : n / 10 / 10 / 10 < 10).
  { rewrite <- E2. apply Nat.Div0.div_lt_upper_bound. lia. }
  rewrite (Nat.mod_small _ _ B).
  lia.
Qed.

Lemma pad4_inj a b : a < 100 * 100 -> b < 100 * 100 -> pad4 a = pad4 b -> a = b.
Proof.
  unfold pad4, pad2. intros Ha Hb H. injection H as H1 H2 H3 H4.
  apply digit_eq in H1, H2, H3, H4.
  change ((a / 1000) mod 10 = (b / 1000) mod 10) in H1.
  change ((a / 100) mod 10 = (b / 100) mod 10) in H2.
  change ((a / 10) mod 10 = (b / 10) mod 10) in H3.
  rewrite (four_digits a Ha), (four_digits b Hb).
  now rewrite H1, H2, H3, H4.
Qed.

Lemma length_append (a b : string) :
  String.length (a ++ b) = String.length a + String.length b.
Proof. induction a as [|c a IH]; simpl; [reflexivity | now rewrite IH]. Qed.

(** Two concatenations with ends of the same length agree part by part. *)
Lemma append_inj_len (a b x y : string) :
  String.length x = String.length y -> a ++ x = b ++ y -> a = b /\ x = y.
Proof.
  revert b. induction a as [|c a IH]; intros [|d b] Hlen H; cbn [append] in H.
  - auto.
  - exfalso. apply (f_equal String.length) in H.
    cbn [String.length] in H. rewrite length_append in H. lia.
  - exfalso. apply (f_equal String.length) in H.
    cbn [String.length] in H. rewrite length_append in H. lia.
  - injection H as -> H. destruct (IH b Hlen H) as [-> ->]. auto.
Qed.

Lemma append_cancel_l (a x y : string) : a ++ x = a ++ y -> x = y.
Proof.
  induction a as [|c a IH]; cbn [append]; intros H; [exact H|].
  injection H as H. auto.
Qed.

Lemma strftime_compact_inj t1 t2 :
  valid_datetime t1 -> valid_datetime t2 ->
  strftime_compact t1 = strftime_compact t2 -> same_second t1 t2.
Proof.
  intros (Hy1 & Hm1 & Hd1 & Hh1 & Hmi1 & Hs1 & _) (Hy2 & Hm2 & Hd2 & Hh2 & Hmi2 & Hs2 & _) H.
  unfold strftime_compact in H.
  apply append_inj_len in H; [|reflexivity]. destruct H as [Hy H].
  apply append_inj_len in H; [|reflexivity]. destruct H as [Hm H].
  apply append_inj_len in H; [|reflexivity]. destruct H as [Hd H].
  apply append_cancel_l in H.
  apply append_inj_len in H; [|reflexivity]. destruct H as [Hh H].
  apply append_inj_len in H; [|reflexivity]. destruct H as [Hmi Hs].
  apply pad4_inj in Hy; [|lia|lia].
  apply pad2_inj in Hm, Hd, Hh, Hmi, Hs; try lia.
  repeat split; assumption.
Qed.

Lemma output_file_name_inj s1 s2 t1 t2 :
  output_file_name s1 t1 = output_file_name s2 t2 ->
  s1 = s2 /\ strftime_compact t1 = strftime_compact t2.
Proof.
  unfold output_file_name. intros H.
  apply append_cancel_l in H.
  apply append_inj_len in H; [|reflexivity].
  destruct H as [-> H]. split; [reflexivity|].
  apply append_cancel_l in H.
  apply append_inj_len in H; [tauto | reflexivity].
Qed.

(* ================================================================== *)
(** ** Further properties: the requests and the stored answers *)

(** X1.  Every request a run of a table scenario sends is the request of
    the phase at its position: it carries the configured model,
    temperature and token limit, and two messages, the system message
    [You are <agent>. <prompt>] and the user message.  A run sends at
    most one request per phase. *)
Theorem request_shape sid sc tp w w' self' r j req :
  scenario_lookup sid SCENARIOS = Some sc ->
  run (w, new_workflow sid sc tp) = ((w', self'), r) ->
  nth_error (requests w') (length (requests w) + j) = Some req ->
  length (requests w') <= length (requests w) + length (phases sc) /\
  exists p,
    nth_error (phases sc) j = Some p /\
    req_model req = OPENAI_MODEL Config /\
    req_temperature req = AGENT_TEMPERATURE Config /\
    req_max_tokens req = AGENT_MAX_TOKENS Config /\
    map role (req_messages req) = ["system"; "user"] /\
    map content (req_messages req)
    = ["You are " ++ agent p ++ ". " ++ prompt p; user_content req].
Proof.
  intros Hl Hrun Hreq.
  destruct (run_table sid sc tp w Hl) as (hist & reqs & w2 & r2 & Hrun2 & Ha & Hr).
  rewrite Hrun in Hrun2. injection Hrun2 as <- -> <-.
  destruct (run_request _ _ _ _ _ _ _ _ _ Ha Hr Hreq) as (p & Hp & -> & _).
  pose proof (answered_length _ _ _ _ _ Ha) as Hlen.
  split.
  - destruct r as [[]|e|c]; cbn [run_outcome] in Hr.
    + destruct Hr as (Hfst & -> & _). rewrite length_app, Hlen.
      apply (f_equal (@length phase)) in Hfst. rewrite length_map in Hfst. lia.
    + destruct Hr as (Hlt & q & pre & _ & -> & _).
      rewrite !length_app, Hlen. simpl. lia.
    + contradiction.
  - exists p. repeat split; auto.
Qed.

(** X2.  A run of a table scenario always sends a first request, and its
    user message has no block of earlier results: it is the topic line
    and an empty line, when there is a topic, and the prompt of the
    first phase. *)
Theorem first_message sid sc tp w w' self' r :
  scenario_lookup sid SCENARIOS = Some sc ->
  run (w, new_workflow sid sc tp) = ((w', self'), r) ->
  exists req p,
    nth_error (requests w') (length (requests w)) = Some req /\
    nth_error (phases sc) 0 = Some p /\
    user_content req
    = (if truthy tp then "Topic/Product: " ++ tp ++ NL ++ NL else "") ++ prompt p.
Proof.
  intros Hl Hrun.
  assert (Hex : exists req, nth_error (requests w') (length (requests w) + 0) = Some req).
  { destruct (run_table sid sc tp w Hl) as (hist & reqs & w2 & r2 & Hrun2 & Ha & Hr).
    rewrite Hrun in Hrun2. injection Hrun2 as <- -> <-.
    pose proof (answered_length _ _ _ _ _ Ha) as Hlen.
    pose proof (table_four_phases sid sc Hl) as H4.
    destruct (nth_error (requests w') (length (requests w) + 0)) as [req|] eqn:E;
      [now exists req|].
    apply nth_error_None in E.
    destruct r as [[]|e|c]; cbn [run_outcome] in Hr.
    - destruct Hr as (Hfst & Hreqs & _). rewrite Hreqs, length_app, Hlen in E.
      apply (f_equal (@length phase)) in Hfst. rewrite length_map in Hfst. lia.
    - destruct Hr as (_ & q & pre & _ & Hreqs & _).
      rewrite Hreqs, !length_app in E. simpl in E. lia.
    - contradiction. }
  destruct Hex as [req Hreq].
  destruct (run_message _ _ _ _ _ _ _ _ _ Hl Hrun Hreq)
    as (hist & p & Hlen & _ & Hp & _ & Hmsg).
  exists req, p. rewrite Nat.add_0_r in Hreq.
  split; [exact Hreq|]. split; [exact Hp|].
  destruct hist; [|discriminate].
  rewrite Hmsg. unfold message_layout, topic_prefix.
  destruct (truthy tp); now str_norm.
Qed.

(** X3.  Whatever the object holds, the block of earlier results renders,
    in the order of the scenario, exactly the earlier phases whose key is
    in the mapping, each with the text stored under its key; a phase
    without an entry is passed over and no lookup fails. *)
Theorem context_renders_present self i :
  build_context self i
  = context_header
    ++ flat (map (fun q => match PyDict.get (phase_key (name q)) (outputs self) with
                           | Some o => NL ++ name q ++ ":" ++ NL ++ o ++ NL
                           | None => ""
                           end)
                 (firstn (i - 1) (phases (scenario self)))).
Proof.
  unfold build_context. fold context_header.
  generalize context_header as acc.
  induction (firstn (i - 1) (phases (scenario self))) as [|q l IH]; intros acc.
  - simpl. now rewrite append_nil_r.
  - cbn [fold_left map flat]. rewrite IH. unfold add_context.
    destruct (PyDict.get (phase_key (name q)) (outputs self)) as [o|].
    + now rewrite !append_assoc.
    + reflexivity.
Qed.

Lemma keys_set k v d :
  PyDict.get k d <> None -> PyDict.keys (PyDict.set k v d) = PyDict.keys d.
Proof.
  induction d as [|[k' v'] d IH]; simpl; [congruence|].
  destruct (String.eqb k' k); simpl; [reflexivity|].
  intros H. now rewrite IH.
Qed.

(** X4.  Executing a phase whose key is already in the mapping replaces
    the text under that key where it stands: the keys and their order
    stay the same and every other entry keeps its text. *)
Theorem store_overwrites i p w self old text :
  PyDict.get (phase_key (name p)) (outputs self) = Some old ->
  client (length (requests w)) (phase_request self i p) = inr text ->
  snd (execute_phase i p (w, self)) = Normal tt /\
  PyDict.keys (outputs (snd (fst (execute_phase i p (w, self)))))
  = PyDict.keys (outputs self) /\
  PyDict.get (phase_key (name p)) (outputs (snd (fst (execute_phase i p (w, self)))))
  = Some text /\
  (forall k, k <> phase_key (name p) ->
     PyDict.get k (outputs (snd (fst (execute_phase i p (w, self)))))
     = PyDict.get k (outputs self)).
Proof.
  intros Hold Hc. rewrite execute_phase_eq, Hc. cbn [fst snd outputs set_outputs].
  split; [reflexivity|]. split; [|split].
  - apply keys_set. congruence.
  - apply get_set_same.
  - intros k Hk. apply get_set_other. congruence.
Qed.

Lemma smap_length f s : String.length (smap f s) = String.length s.
Proof. induction s as [|c s IH]; simpl; [reflexivity | now rewrite IH]. Qed.

Lemma key_char_shape c :
  Ascii.eqb (key_char c) " " = false /\ lower_char (key_char c) = key_char c.
Proof. destruct c as [[] [] [] [] [] [] [] []]; split; reflexivity. Qed.

(** X5.  A storage key is as long as the name, holds no space and is
    already in lower case.  Different names can share a key: the key
    does not tell a space from an underscore, nor a name from the same
    name in lower case. *)
Theorem phase_key_shape :
  (forall nm, String.length (phase_key nm) = String.length nm) /\
  (forall nm, has_char " " (phase_key nm) = false) /\
  (forall nm, lower (phase_key nm) = phase_key nm) /\
  (forall a b, phase_key (a ++ " " ++ b) = phase_key (a ++ "_" ++ b)) /\
  (forall nm, phase_key (lower nm) = phase_key nm).
Proof.
  split; [|split; [|split; [|split]]].
  - intros nm. rewrite phase_key_smap. apply smap_length.
  - intros nm. rewrite phase_key_smap.
    induction nm as [|c nm IH]; [reflexivity|].
    cbn [smap has_char]. rewrite IH. now destruct (key_char_shape c) as [-> _].
  - intros nm. rewrite phase_key_smap. unfold lower. rewrite smap_smap.
    apply smap_ext. intros c. now destruct (key_char_shape c).
  - intros a b. rewrite !phase_key_smap.
    induction a as [|c a IH]; [reflexivity|]. cbn [append smap] in *.
    f_equal. exact IH.
  - intros nm. rewrite !phase_key_smap. unfold lower. rewrite !smap_smap.
    apply smap_ext. intros c. destruct c as [[] [] [] [] [] [] [] []]; reflexivity.
Qed.

Lemma lower_idem s : lower (lower s) = lower s.
Proof.
  unfold lower. rewrite smap_smap. apply smap_ext.
  intros c. destruct c as [[] [] [] [] [] [] [] []]; reflexivity.
Qed.

(* ================================================================== *)
(** ** Parts of the world a computation leaves alone *)

Lemma keeps_ret {X A} (f : world -> X) (a : A) : keeps f (ret a).
Proof. intros s. reflexivity. Qed.

Lemma keeps_bind {X A B} (f : world -> X) (m : M st A) (k : A -> M st B) :
  keeps f m -> (forall a, keeps f (k a)) -> keeps f (bind m k).
Proof.
  intros Hm Hk s. unfold bind. specialize (Hm s).
  destruct (m s) as [s1 [a|e|c]]; cbn [fst] in *; auto.
  now rewrite Hk.
Qed.

Lemma keeps_if {X A} (f : world -> X) (b : bool) (m1 m2 : M st A) :
  keeps f m1 -> keeps f m2 -> keeps f (if b then m1 else m2).
Proof. now destruct b. Qed.

Lemma keeps_for {X A} (f : world -> X) (body : nat -> A -> M st unit) (l : list A) :
  (forall i x, keeps f (body i x)) -> forall i, keeps f (for_enumerate body i l).
Proof.
  intros Hb. induction l as [|x l IH]; intros i; simpl.
  - apply keeps_ret.
  - apply keeps_bind; auto.
Qed.

Lemma keeps_get_self {X} (f : world -> X) : keeps f get_self.
Proof. intros s. reflexivity. Qed.

Lemma keeps_getitem {X} (f : world -> X) k : keeps f (getitem k).
Proof.
  intros s. unfold getitem. now destruct (PyDict.get k (outputs (snd s))).
Qed.

Lemma keeps_setitem {X} (f : world -> X) k v : keeps f (setitem k v).
Proof. intros s. reflexivity. Qed.

Lemma keeps_liftW {X A} (f : world -> X) (m : M world A) :
  (forall w, f (fst (m w)) = f w) -> keeps f (liftW m).
Proof.
  intros H [w self]. unfold liftW. cbn [fst]. specialize (H w).
  now destruct (m w).
Qed.

Lemma create_keeps {X} (f : world -> X) req :
  (forall w r, f {| stdout := stdout w; stderr := stderr w; requests := r;
                    files := files w; clock_reads := clock_reads w;
                    stdin := stdin w |} = f w) ->
  forall w, f (fst (create req w)) = f w.
Proof.
  intros H w. unfold create.
  destruct (client (length (requests w)) req); apply H.
Qed.

Ltac keeps_tac :=
  repeat first
    [ apply keeps_bind; [|intro]
    | apply keeps_if
    | apply keeps_for; intros
    | apply keeps_get_self
    | apply keeps_getitem
    | apply keeps_setitem
    | apply keeps_ret
    | apply keeps_liftW; first [ apply create_keeps; reflexivity | intros ?; reflexivity ] ].

Lemma execute_phase_keeps_stdin i p : keeps stdin (execute_phase i p).
Proof. unfold execute_phase. keeps_tac. Qed.

Lemma print_summary_keeps_stdin : keeps stdin print_summary.
Proof.
  unfold print_summary, print_report, write_results, print_saved. keeps_tac.
Qed.

Lemma run_keeps_stdin : keeps stdin run.
Proof.
  unfold run, run_banner, run_phases.
  pose proof execute_phase_keeps_stdin. pose proof print_summary_keeps_stdin.
  keeps_tac; auto.
Qed.

Lemma print_report_keeps_files : keeps files print_report.
Proof. unfold print_report. keeps_tac. Qed.

Lemma print_report_keeps_clock : keeps clock_reads print_report.
Proof. unfold print_report. keeps_tac. Qed.

Lemma print_saved_keeps_files path : keeps files (print_saved path).
Proof. unfold print_saved. keeps_tac. Qed.

(** X6.  On a command line with a scenario id, [main] runs the [try]
    statement on the id in lower case and on the remaining arguments
    joined by single spaces as the topic, so the id is matched without
    regard to case; it reads nothing from standard input. *)
Theorem main_command_line prog a rest w :
  main (prog :: a :: rest) w = main_try (lower a) (join " " rest) w /\
  main (prog :: lower a :: rest) w = main (prog :: a :: rest) w /\
  stdin (fst (main (prog :: a :: rest) w)) = stdin w.
Proof.
  assert (H : forall b, main (prog :: b :: rest) w = main_try (lower b) (join " " rest) w).
  { intros b. unfold main. destruct rest as [|t rest']; reflexivity. }
  split; [apply H|]. split; [now rewrite !H, lower_idem|].
  rewrite H.
  destruct (validate_setup Config) eqn:Hv.
  - destruct (scenario_lookup (lower a) SCENARIOS) as [sc|] eqn:Hl.
    + rewrite (main_try_eq _ sc _ w Hv Hl).
      pose proof (run_keeps_stdin (w, new_workflow (lower a) sc (join " " rest))) as Hst.
      cbn [fst] in Hst.
      destruct (run (w, new_workflow (lower a) sc (join " " rest))) as [[w1 self1] [[]|e|c]];
        cbn [fst snd] in *; exact Hst.
    + rewrite (main_try_exit _ _ w _ 1%Z) by (now rewrite init_eq, Hv, Hl).
      reflexivity.
  - rewrite (main_try_exit _ _ w _ 1%Z) by (now rewrite init_eq, Hv).
    reflexivity.
Qed.

(* ================================================================== *)
(** ** Further properties: the interactive menu and the handler *)

Lemma bind_print {A} x (k : unit -> M world A) w :
  bind (print x) k w = k tt (with_stdout (fun o => append_item o (x ++ NL)) w).
Proof. reflexivity. Qed.

Lemma bind_input_cons {A} p (k : string -> M world A) w l r :
  stdin w = l :: r -> bind (input p) k w = k l (world_asked p r w).
Proof.
  intros H. unfold bind, input. cbn [stdin with_stdout]. rewrite H. reflexivity.
Qed.

Lemma bind_input_nil {A} p (k : string -> M world A) w :
  stdin w = [] ->
  bind (input p) k w = (with_stdout (fun o => append_item o p) w, Raised EOFError).
Proof.
  intros H. unfold bind, input. cbn [stdin with_stdout]. rewrite H. reflexivity.
Qed.

Lemma orb_eqb_choice (c a b : string) :
  (String.eqb c a || String.eqb c b) = true <-> c = a \/ c = b.
Proof. rewrite orb_true_iff, !String.eqb_eq. tauto. Qed.

(** The menu up to the line it reads first. *)
Ltac menu_start Hin :=
  unfold interactive; rewrite !bind_print;
  match type of Hin with
  | stdin _ = ?l :: ?r => rewrite (bind_input_cons _ _ _ l r) by exact Hin
  end.

(** A branch of the menu that asks for the topic. *)
Ltac menu_topic rest :=
  let t := fresh "t" in
  let rest' := fresh "rest'" in
  let H := fresh "H" in
  let Hr := fresh "Hr" in
  let Hw := fresh "Hw" in
  destruct rest as [|t rest'];
  [ rewrite bind_input_nil by reflexivity; discriminate
  | rewrite (bind_input_cons _ _ _ t rest') by reflexivity;
    unfold ret; intros H;
    pose proof (f_equal snd H) as Hr; pose proof (f_equal fst H) as Hw;
    cbn [fst snd] in Hr, Hw; injection Hr as <- <-; rewrite <- Hw;
    (split; [vm_compute; discriminate | split; reflexivity]) ].

(** X7.  Whatever is typed, the interactive menu hands a scenario of the
    table to the constructor, and it touches neither the client nor the
    files.  A choice is read with surrounding blanks removed and in
    lower case: a digit 1..4 or a scenario id selects that scenario and
    the next line, stripped, is the topic; anything else selects
    [conference] with an empty topic, after the line
    [Invalid choice. Using default: conference], without reading a
    second line. *)
Theorem interactive_selection w line rest :
  stdin w = line :: rest ->
  (forall w' sid tp,
      interactive w = (w', Normal (sid, tp)) ->
      scenario_lookup sid SCENARIOS <> None /\ requests w' = requests w /\
      files w' = files w) /\
  (forall digit sid t rest',
      In (digit, sid) menu_entries ->
      lower (strip line) = digit \/ lower (strip line) = sid ->
      rest = t :: rest' ->
      snd (interactive w) = Normal (sid, strip t) /\
      stdin (fst (interactive w)) = rest') /\
  ((forall digit sid, In (digit, sid) menu_entries ->
       lower (strip line) <> digit /\ lower (strip line) <> sid) ->
   snd (interactive w) = Normal ("conference", "") /\
   stdin (fst (interactive w)) = rest /\
   last (stdout (fst (interactive w))) "" = "Invalid choice. Using default: conference" ++ NL).
Proof.
  intros Hin. split; [|split].
  - intros w' sid tp. menu_start Hin.
    destruct (String.eqb (lower (strip line)) "1"
              || String.eqb (lower (strip line)) "conference"); [menu_topic rest|].
    destruct (String.eqb (lower (strip line)) "2"
              || String.eqb (lower (strip line)) "marketing"); [menu_topic rest|].
    destruct (String.eqb (lower (strip line)) "3"
              || String.eqb (lower (strip line)) "research"); [menu_topic rest|].
    destruct (String.eqb (lower (strip line)) "4"
              || String.eqb (lower (strip line)) "architecture"); [menu_topic rest|].
    rewrite bind_print. unfold ret. intros H.
    pose proof (f_equal snd H) as Hr. pose proof (f_equal fst H) as Hw.
    cbn [fst snd] in Hr, Hw. injection Hr as <- <-. rewrite <- Hw.
    split; [vm_compute; discriminate | split; reflexivity].
  - intros digit sid t rest' Hd Hc ->. menu_start Hin.
    unfold menu_entries in Hd. cbn [In] in Hd.
    destruct Hd as [Hd|[Hd|[Hd|[Hd|[]]]]]; injection Hd as <- <-;
      (destruct Hc as [Hc|Hc]; rewrite Hc;
       cbv [String.eqb Ascii.eqb Bool.eqb orb];
       rewrite (bind_input_cons _ _ _ t rest') by reflexivity;
       split; reflexivity).
  - intros Hno. menu_start Hin.
    assert (Hf : forall digit sid, In (digit, sid) menu_entries ->
               (String.eqb (lower (strip line)) digit
                || String.eqb (lower (strip line)) sid) = false).
    { intros digit sid Hd. destruct (Hno digit sid Hd) as [H1 H2].
      apply orb_false_intro; now apply String.eqb_neq. }
    rewrite (Hf "1" "conference"), (Hf "2" "marketing"), (Hf "3" "research"),
      (Hf "4" "architecture") by (unfold menu_entries; cbn [In]; tauto).
    rewrite bind_print. unfold ret. cbn [fst snd].
    split; [reflexivity|]. split; [reflexivity|].
    unfold with_stdout at 1. unfold append_item at 1. cbn [stdout]. apply last_last.
Qed.

(** The menu when the lines run out. *)
Lemma interactive_eof w :
  stdin w = [] \/
  (exists line digit sid,
      stdin w = [line] /\ In (digit, sid) menu_entries /\
      (lower (strip line) = digit \/ lower (strip line) = sid)) ->
  snd (interactive w) = Raised EOFError /\
  requests (fst (interactive w)) = requests w /\
  files (fst (interactive w)) = files w /\
  stderr (fst (interactive w)) = stderr w.
Proof.
  intros [Hnil|(line & digit & sid & Hin & Hd & Hc)].
  - unfold interactive. rewrite !bind_print.
    rewrite bind_input_nil by exact Hnil. repeat split.
  - menu_start Hin.
    unfold menu_entries in Hd. cbn [In] in Hd.
    destruct Hd as [Hd|[Hd|[Hd|[Hd|[]]]]]; injection Hd as <- <-;
      (destruct Hc as [Hc|Hc]; rewrite Hc;
       cbv [String.eqb Ascii.eqb Bool.eqb orb];
       rewrite bind_input_nil by reflexivity;
       repeat split).
Qed.

(** X8.  The menu reads its lines before the [try] statement.  When
    standard input ends at the choice, or at the topic after an accepted
    choice, the end-of-file error is not caught by the handler of [main]:
    the process prints the traceback and leaves with status 1, having
    called the client not once and written no file. *)
Theorem interactive_end_of_input prog w :
  stdin w = [] \/
  (exists line digit sid,
      stdin w = [line] /\ In (digit, sid) menu_entries /\
      (lower (strip line) = digit \/ lower (strip line) = sid)) ->
  snd (program true [prog] w) = 1%Z /\
  requests (fst (program true [prog] w)) = requests w /\
  files (fst (program true [prog] w)) = files w /\
  stderr (fst (program true [prog] w)) = append_item (stderr w) EOFError.
Proof.
  intros H. destruct (interactive_eof w H) as (Hr & Hq & Hf & He).
  unfold program, main, bind.
  destruct (interactive w) as [w1 r1]. cbn [fst snd] in *. subst r1.
  unfold print_exc. cbn [fst snd requests files stderr].
  repeat split; congruence.
Qed.

(* ================================================================== *)
(** ** Further properties: the summary and the result file *)

Lemma set_set k v1 v2 d : PyDict.set k v2 (PyDict.set k v1 d) = PyDict.set k v2 d.
Proof.
  induction d as [|[k' v'] d IH]; simpl.
  - now rewrite String.eqb_refl.
  - destruct (String.eqb k' k) eqn:E; simpl; rewrite E; [reflexivity | now rewrite IH].
Qed.

Lemma bind_eq {St A B} (m : M St A) (k : A -> M St B) s s' a :
  m s = (s', Normal a) -> bind m k s = k a s'.
Proof. intros H. unfold bind. now rewrite H. Qed.

Lemma step_fwrite path c x w (self : workflow) :
  liftW (fwrite path x) (with_files (PyDict.set path c) w, self)
  = ((with_files (PyDict.set path (c ++ x)) w, self), Normal tt).
Proof.
  unfold liftW, fwrite, with_files. cbn [fst snd files stdout stderr requests clock_reads stdin].
  now rewrite get_set_same, set_set.
Qed.

Lemma step_now f w (self : workflow) :
  liftW datetime_now (with_files f w, self)
  = ((with_files f (tick w), self), Normal (now (clock_reads w))).
Proof. reflexivity. Qed.

Lemma step_getitem k w self o :
  PyDict.get k (outputs self) = Some o -> getitem k (w, self) = ((w, self), Normal o).
Proof. intros H. unfold getitem. cbn [snd]. now rewrite H. Qed.

(** The loop that writes the phases' sections. *)
Lemma write_sections path self (l : list phase) :
  (forall p, In p l -> PyDict.get (pkey p) (outputs self) <> None) ->
  forall i c w,
    for_enumerate
      (fun i phase =>
         let phase_key := phase_key (name phase) in
         liftW (fwrite path (NL ++ rep "-" 80 ++ NL)) ;;
         liftW (fwrite path ("PHASE " ++ str_nat i ++ ": " ++ upper (name phase) ++ NL)) ;;
         liftW (fwrite path (rep "-" 80 ++ NL)) ;;
         out <- getitem phase_key ;;
         liftW (fwrite path (out ++ NL)))
      i l (with_files (PyDict.set path c) w, self)
    = ((with_files (PyDict.set path (c ++ sections (outputs self) i l)) w, self), Normal tt).
Proof.
  induction l as [|p l IH]; intros Hall i c w.
  - cbn [for_enumerate sections]. now rewrite append_nil_r.
  - cbn [for_enumerate sections].
    destruct (PyDict.get (pkey p) (outputs self)) as [o|] eqn:Ho;
      [|exfalso; apply (Hall p); [now left | exact Ho]].
    erewrite bind_eq; cycle 1.
    { cbv beta zeta.
      rewrite (bind_eq _ _ _ _ _ (step_fwrite _ _ _ _ _)).
      rewrite (bind_eq _ _ _ _ _ (step_fwrite _ _ _ _ _)).
      rewrite (bind_eq _ _ _ _ _ (step_fwrite _ _ _ _ _)).
      rewrite (bind_eq _ _ _ _ _ (step_getitem _ _ _ _ Ho)).
      apply step_fwrite. }
    rewrite IH by (intros q Hq; apply Hall; now right).
    unfold stored_text. fold (pkey p). rewrite Ho.
    do 3 f_equal. now rewrite !append_assoc.
Qed.

Lemma write_results_eq path self c w :
  complete self ->
  write_results path (with_files (PyDict.set path c) w, self)
  = ((with_files
        (PyDict.set path
           (c ++ rep "=" 80 ++ NL
              ++ "AUTOGEN " ++ upper (scenario_name (scenario self)) ++ " - FULL RESULTS" ++ NL
              ++ rep "=" 80 ++ NL
              ++ "Generated: " ++ strftime_long (now (clock_reads w)) ++ NL
              ++ "Model: " ++ model self ++ NL
              ++ (if truthy (topic self) then "Topic: " ++ topic self ++ NL else "")
              ++ NL
              ++ sections (outputs self) 1 (phases (scenario self))))
        (tick w), self),
     Normal tt).
Proof.
  intros Hc. unfold write_results.
  unfold bind at 1. unfold get_self at 1. cbn [snd]. cbv zeta.
  rewrite (bind_eq _ _ _ _ _ (step_fwrite _ _ _ _ _)).
  rewrite (bind_eq _ _ _ _ _ (step_fwrite _ _ _ _ _)).
  rewrite (bind_eq _ _ _ _ _ (step_fwrite _ _ _ _ _)).
  rewrite (bind_eq _ _ _ _ _ (step_now _ _ _)).
  rewrite (bind_eq _ _ _ _ _ (step_fwrite _ _ _ _ _)).
  rewrite (bind_eq _ _ _ _ _ (step_fwrite _ _ _ _ _)).
  destruct (truthy (topic self)).
  - rewrite (bind_eq _ _ _ _ _ (step_fwrite _ _ _ _ _)).
    rewrite (bind_eq _ _ _ _ _ (step_fwrite _ _ _ _ _)).
    rewrite write_sections by (intros p Hp; now apply Hc).
    do 3 f_equal. now rewrite !append_assoc.
  - erewrite bind_eq by reflexivity.
    rewrite (bind_eq _ _ _ _ _ (step_fwrite _ _ _ _ _)).
    rewrite write_sections by (intros p Hp; now apply Hc).
    do 3 f_equal. now rewrite !append_assoc.
Qed.

(** What a summary that ends normally leaves in the files: the transcript
    under the name made of the scenario id and the reading of the clock. *)
Lemma print_summary_files w self s' a :
  complete self ->
  print_summary (w, self) = (s', Normal a) ->
  files (fst s')
  = PyDict.set (output_file_name (scenario_type self) (now (clock_reads w)))
               (transcript self (now (S (clock_reads w))))
               (files w).
Proof.
  intros Hc H. unfold print_summary in H.
  apply bind_Normal_inv in H. destruct H as (s1 & [] & H1 & H).
  pose proof (print_report_keeps_files (w, self)) as Hf1.
  pose proof (print_report_keeps_clock (w, self)) as Hk1.
  destruct (quiet_print_report (w, self)) as [(Hs1 & _) _].
  rewrite H1 in Hf1, Hk1, Hs1. cbn [fst snd] in Hf1, Hk1, Hs1.
  destruct s1 as [w1 self1]. cbn [fst snd] in *. subst self1.
  unfold bind at 1 in H. unfold get_self at 1 in H. cbn [snd] in H.
  rewrite (bind_eq _ _ _ _ _ (liftW_now_eq w1 self)) in H.
  rewrite (bind_eq _ _ _ _ _ (liftW_open_eq _ _ self)) in H.
  change {| stdout := stdout w1; stderr := stderr w1; requests := requests w1;
            files := files w1; clock_reads := S (clock_reads w1); stdin := stdin w1 |}
    with (tick w1) in H.
  rewrite (bind_eq _ _ _ _ _ (write_results_eq _ self "" (tick w1) Hc)) in H.
  pose proof (print_saved_keeps_files
                (output_file_name (scenario_type self) (now (clock_reads w1)))
                (with_files
                   (PyDict.set
                      (output_file_name (scenario_type self) (now (clock_reads w1)))
                      ("" ++ rep "=" 80 ++ NL
                       ++ "AUTOGEN " ++ upper (scenario_name (scenario self))
                       ++ " - FULL RESULTS" ++ NL
                       ++ rep "=" 80 ++ NL
                       ++ "Generated: " ++ strftime_long (now (clock_reads (tick w1))) ++ NL
                       ++ "Model: " ++ model self ++ NL
                       ++ (if truthy (topic self) then "Topic: " ++ topic self ++ NL else "")
                       ++ NL
                       ++ sections (outputs self) 1 (phases (scenario self))))
                   (tick (tick w1)), self)) as Hf5.
  rewrite H in Hf5. cbn [fst] in Hf5. rewrite Hf5.
  cbn [files with_files tick clock_reads]. rewrite Hf1, Hk1. reflexivity.
Qed.

(** The state in which a run that ends normally enters its summary. *)
Lemma run_enters_summary sid sc tp w w' self' :
  scenario_lookup sid SCENARIOS = Some sc ->
  run (w, new_workflow sid sc tp) = ((w', self'), Normal tt) ->
  exists w2,
    print_summary (w2, self') = ((w', self'), Normal tt) /\
    files w2 = files w /\
    clock_reads w2 = S (clock_reads w) /\
    complete self' /\
    scenario self' = sc /\ scenario_type self' = sid.
Proof.
  intros Hl Hrun. unfold run in Hrun.
  apply bind_Normal_inv in Hrun. destruct Hrun as (s1 & [] & H1 & Hrun).
  unfold bind at 1 in Hrun. unfold get_self at 1 in Hrun.
  apply bind_Normal_inv in Hrun. destruct Hrun as (s2 & [] & H2 & H3).
  destruct (quiet_run_banner (w, new_workflow sid sc tp)) as [(Hb & _) _].
  destruct (run_banner_clock w (new_workflow sid sc tp)) as [Hbc Hbf].
  rewrite H1 in Hb, Hbc, Hbf. destruct s1 as [w1 self1]. cbn [fst snd] in *. subst self1.
  cbn [scenario new_workflow] in H2.
  pose proof (run_phases_steps (phases sc) (w1, new_workflow sid sc tp)
                               (length (phases sc)) (le_n _)) as Hs.
  rewrite firstn_all, H2 in Hs. cbn [fst snd] in Hs.
  pose proof (loop_step_files _ _ _ _ _ Hs) as Hfiles.
  pose proof (loop_step_clock _ _ _ _ _ Hs) as Hclock.
  apply loop_step_inv in Hs; [|reflexivity | now apply (table_distinct_keys sid)].
  destruct Hs as (hist & reqs & Ha & Hself & Hlen & _).
  destruct (quiet_print_summary s2) as [(Hq & _) _].
  rewrite H3 in Hq. destruct s2 as [w2 self2]. cbn [fst snd] in *. subst self2 self'.
  exists w2. split; [exact H3|]. split; [congruence|]. split; [congruence|].
  split; [|split; reflexivity].
  apply complete_self_at. cbn [scenario new_workflow].
  rewrite (answered_phases _ _ _ _ _ Ha), Hlen. apply firstn_all.
Qed.

(** C8, as the program has it.  A run of a scenario of the table that
    ends normally leaves its transcript in the file
    [Exercise_4_<scenario id>_<YYYYMMDD_HHMMSS>.txt], the time being the
    reading of the clock taken in the summary: whatever a file of that
    name held before is replaced by this run's transcript, and no other
    file is changed.  A run in which a call to the client fails changes
    no file.  Two such names are equal exactly when the scenario ids are
    equal and the two readings agree down to the second, so a run whose
    id and reading agree with those of an earlier run replaces that
    run's file. *)
Theorem result_file_name :
  (forall sid sc tp w w' self',
      scenario_lookup sid SCENARIOS = Some sc ->
      run (w, new_workflow sid sc tp) = ((w', self'), Normal tt) ->
      files w'
      = PyDict.set (output_file_name sid (now (S (clock_reads w))))
                   (transcript self' (now (S (S (clock_reads w)))))
                   (files w) /\
      PyDict.get (output_file_name sid (now (S (clock_reads w)))) (files w')
      = Some (transcript self' (now (S (S (clock_reads w))))) /\
      (forall path,
          path <> output_file_name sid (now (S (clock_reads w))) ->
          PyDict.get path (files w') = PyDict.get path (files w))) /\
  (forall sid sc tp w w' self' r k req e,
      scenario_lookup sid SCENARIOS = Some sc ->
      run (w, new_workflow sid sc tp) = ((w', self'), r) ->
      nth_error (requests w') (length (requests w) + k) = Some req ->
      client (length (requests w) + k) req = inl e ->
      files w' = files w) /\
  (forall s1 s2 t1 t2,
      valid_datetime t1 -> valid_datetime t2 ->
      (output_file_name s1 t1 = output_file_name s2 t2 <-> s1 = s2 /\ same_second t1 t2)).
Proof.
  split; [|split].
  - intros sid sc tp w w' self' Hl Hrun.
    destruct (run_enters_summary _ _ _ _ _ _ Hl Hrun)
      as (w2 & Hsum & Hf & Hk & Hc & _ & Hty).
    pose proof (print_summary_files _ _ _ _ Hc Hsum) as Hfiles.
    cbn [fst] in Hfiles. rewrite Hf, Hk, Hty in Hfiles.
    split; [exact Hfiles|]. rewrite Hfiles. split.
    + apply get_set_same.
    + intros path Hne. apply get_set_other. congruence.
  - intros sid sc tp w w' self' r k req e Hl Hrun Hreq Hfail.
    destruct (run_table sid sc tp w Hl) as (hist & reqs & w2 & r2 & Hrun2 & Ha & Hr).
    rewrite Hrun in Hrun2. injection Hrun2 as <- -> <-.
    destruct (run_request _ _ _ _ _ _ _ _ _ Ha Hr Hreq) as (p & _ & _ & Hcase).
    destruct Hcase as [(o & _ & Ho)|(_ & e' & -> & _)]; [congruence|].
    cbn [run_outcome] in Hr. destruct Hr as (_ & q & pre & _ & _ & _ & _ & Hf).
    exact Hf.
  - intros s1 s2 t1 t2 Hv1 Hv2. split.
    + intros H. apply output_file_name_inj in H. destruct H as [-> H].
      split; [reflexivity | now apply strftime_compact_inj].
    + intros (-> & Hy & Hm & Hd & Hh & Hmi & Hs).
      unfold output_file_name, strftime_compact. congruence.
Qed.

(** X10.  A run of a table scenario that ends normally changes the files
    in one place: under the name made of the scenario id and the second
    reading of the clock it leaves the transcript, whatever was there
    before.  The transcript names the scenario, the time of the third
    reading, the model and, when there is one, the topic, and then holds,
    for each phase in the order of the scenario, the phase's number and
    name and the full text stored for it. *)
Theorem transcript_written sid sc tp w w' self' :
  scenario_lookup sid SCENARIOS = Some sc ->
  run (w, new_workflow sid sc tp) = ((w', self'), Normal tt) ->
  files w'
  = PyDict.set (output_file_name sid (now (S (clock_reads w))))
               (rep "=" 80 ++ NL
                ++ "AUTOGEN " ++ upper (scenario_name sc) ++ " - FULL RESULTS" ++ NL
                ++ rep "=" 80 ++ NL
                ++ "Generated: " ++ strftime_long (now (S (S (clock_reads w)))) ++ NL
                ++ "Model: " ++ OPENAI_MODEL Config ++ NL
                ++ (if truthy tp then "Topic: " ++ tp ++ NL else "")
                ++ NL
                ++ sections (outputs self') 1 (phases sc))
               (files w).
Proof.
  intros Hl Hrun.
  destruct (run_enters_summary _ _ _ _ _ _ Hl Hrun)
    as (w2 & Hsum & Hf & Hk & Hc & Hsc & Hty).
  pose proof (print_summary_files _ _ _ _ Hc Hsum) as Hfiles.
  cbn [fst] in Hfiles. rewrite Hfiles.
  rewrite Hf, Hk, Hty. unfold transcript. rewrite Hsc.
  destruct (run_table sid sc tp w Hl) as (hist & reqs & w3 & r3 & Hrun3 & _ & _).
  rewrite Hrun in Hrun3. injection Hrun3 as _ -> _.
  reflexivity.
Qed.

(** *** A summary on a mapping that lacks a phase *)

Lemma raises_bind_now {A B} self e (m : M st A) (k : A -> M st B) :
  raises_at self e m -> raises_at self e (bind m k).
Proof.
  intros Hm w. unfold bind. specialize (Hm w).
  destruct (m (w, self)) as [s1 r]. cbn [snd] in Hm. now subst r.
Qed.

Lemma raises_bind_later {A B} self e (m : M st A) (k : A -> M st B) :
  quiet m -> total_at self m -> (forall a, raises_at self e (k a)) ->
  raises_at self e (bind m k).
Proof.
  intros Hq Hm Hk w. unfold bind.
  destruct (Hm w) as [a Ha]. destruct (Hq (w, self)) as [(Hs & _) _].
  destruct (m (w, self)) as [[w1 self1] r]. cbn [fst snd] in *. subst r self1.
  apply Hk.
Qed.

Lemma raises_get_self {B} self e (k : workflow -> M st B) :
  raises_at self e (k self) -> raises_at self e (bind get_self k).
Proof. intros Hk w. unfold bind, get_self. cbn. apply Hk. Qed.

Lemma raises_getitem self k :
  PyDict.get k (outputs self) = None -> raises_at self (KeyError k) (getitem k).
Proof. intros H w. unfold getitem. cbn [snd]. now rewrite H. Qed.

(** A loop raises what its first failing turn raises. *)
Lemma raises_for {A} self e (body : nat -> A -> M st unit) (l1 : list A) x l2 :
  (forall i y, quiet (body i y)) ->
  (forall i y, In y l1 -> total_at self (body i y)) ->
  (forall i, raises_at self e (body i x)) ->
  forall i, raises_at self e (for_enumerate body i (l1 ++ x :: l2)).
Proof.
  intros Hq. induction l1 as [|y l1 IH]; intros Ht Hx i; cbn [app for_enumerate].
  - apply raises_bind_now, Hx.
  - apply raises_bind_later.
    + apply Hq.
    + apply Ht. now left.
    + intros _. apply IH; [|exact Hx]. intros j z Hz. apply Ht. now right.
Qed.

Lemma raises_print_report self l1 p l2 :
  phases (scenario self) = (l1 ++ p :: l2)%list ->
  (forall q, In q l1 -> PyDict.get (phase_key (name q)) (outputs self) <> None) ->
  PyDict.get (phase_key (name p)) (outputs self) = None ->
  raises_at self (KeyError (phase_key (name p))) print_report.
Proof.
  intros Hps Hl1 Hp. unfold print_report.
  apply raises_get_self. cbv zeta.
  do 4 (apply raises_bind_later; [quiet_tac | total_tac | intros _]).
  apply raises_bind_later; [quiet_tac | total_tac | intros _].
  do 4 (apply raises_bind_later; [quiet_tac | total_tac | intros _]).
  rewrite Hps. apply raises_for.
  - intros. quiet_tac.
  - intros i q Hq. total_tac; try (now apply Hl1).
  - intros i.
    do 3 (apply raises_bind_later; [quiet_tac | total_tac | intros _]).
    apply raises_bind_now. now apply raises_getitem.
Qed.

(** X11.  Called on an object whose mapping lacks the text of some phase,
    [print_summary] raises [KeyError] with the key of the first such
    phase, in the order of the scenario, while it prints the report: it
    does not read the clock and opens no file. *)
Theorem summary_missing_key self w l1 p l2 :
  phases (scenario self) = (l1 ++ p :: l2)%list ->
  (forall q, In q l1 -> PyDict.get (phase_key (name q)) (outputs self) <> None) ->
  PyDict.get (phase_key (name p)) (outputs self) = None ->
  snd (print_summary (w, self)) = Raised (KeyError (phase_key (name p))) /\
  files (fst (fst (print_summary (w, self)))) = files w /\
  clock_reads (fst (fst (print_summary (w, self)))) = clock_reads w.
Proof.
  intros Hps Hl1 Hp.
  pose proof (raises_print_report self l1 p l2 Hps Hl1 Hp w) as Hr.
  pose proof (print_report_keeps_files (w, self)) as Hf.
  pose proof (print_report_keeps_clock (w, self)) as Hk.
  assert (E : print_summary (w, self)
              = (fst (print_report (w, self)), Raised (KeyError (phase_key (name p))))).
  { unfold print_summary, bind at 1.
    destruct (print_report (w, self)) as [s1 r1]. cbn [fst snd] in *. now subst r1. }
  rewrite E. cbn [fst snd]. auto.
Qed.

(* ================================================================== *)
(** ** Further properties: what the loop stores and prints *)

(** X12.  In a run of a table scenario, the text stored for a phase is
    the text the client returned for that phase's request, unchanged. *)
Theorem stored_is_answer sid sc tp w w' self' r j req text :
  scenario_lookup sid SCENARIOS = Some sc ->
  run (w, new_workflow sid sc tp) = ((w', self'), r) ->
  nth_error (requests w') (length (requests w) + j) = Some req ->
  client (length (requests w) + j) req = inr text ->
  exists p,
    nth_error (phases sc) j = Some p /\
    PyDict.get (phase_key (name p)) (outputs self') = Some text.
Proof.
  intros Hl Hrun Hreq Hans.
  destruct (run_table sid sc tp w Hl) as (hist & reqs & w2 & r2 & Hrun2 & Ha & Hr).
  rewrite Hrun in Hrun2. injection Hrun2 as <- -> <-.
  destruct (run_request _ _ _ _ _ _ _ _ _ Ha Hr Hreq) as (p & Hp & _ & Hcase).
  destruct Hcase as [(o & Ho & Hc)|(_ & e & _ & He)]; [|congruence].
  assert (o = text) by congruence. subst o.
  exists p. split; [exact Hp|].
  cbn [self_at set_outputs outputs]. fold (pkey p).
  apply get_stored.
  - rewrite (answered_phases _ _ _ _ _ Ha).
    apply NoDup_map_firstn. now apply (table_distinct_keys sid).
  - now apply (nth_error_In _ j).
Qed.

Lemma log_lines_snoc hist po : forall i,
  log_lines i (hist ++ [po]) = (log_lines i hist ++ phase_lines (i + length hist) po)%list.
Proof.
  induction hist as [|x hist IH]; intros i; cbn [app log_lines length].
  - now rewrite app_nil_r, Nat.add_0_r.
  - rewrite IH, <- app_assoc. now rewrite Nat.add_succ_comm.
Qed.

(** What the loop has printed after [k] turns. *)
Lemma loop_step_stdout ps w0 self0 k s r :
  outputs self0 = [] ->
  NoDup (map pkey ps) ->
  loop_step ps (w0, self0) k s r ->
  exists hist reqs,
    answered ps (length (requests w0)) self0 hist reqs /\
    snd s = self_at self0 hist /\
    match r with
    | Normal _ =>
        length hist = k /\
        requests (fst s) = (requests w0 ++ reqs)%list /\
        stdout (fst s) = (stdout w0 ++ log_lines 1 hist)%list
    | Raised e =>
        exists p,
          nth_error ps (length hist) = Some p /\
          stdout (fst s)
          = (stdout w0 ++ log_lines 1 hist ++ banner (S (length hist)) p)%list
    | SystemExit _ => False
    end.
Proof.
  intros Hout Hnd Hstep.
  induction Hstep as [|k w self p text _ IH Hp Hc|k w self p e _ IH Hp Hc|k s e _ IH Hk].
  - exists [], []. split; [constructor|]. split.
    + simpl. symmetry. now apply self_at_nil.
    + simpl. now rewrite !app_nil_r.
  - destruct IH as (hist & reqs & Ha & Hs & Hlen & Hreq & Hso).
    cbn [fst snd] in *. subst self k.
    pose proof (answered_length _ _ _ _ _ Ha) as Hl.
    assert (Hn : length (requests w) = length (requests w0) + length hist)
      by (rewrite Hreq, length_app; lia).
    rewrite Hn in Hc.
    exists (hist ++ [(p, text)])%list,
           (reqs ++ [phase_request (self_at self0 hist) (S (length hist)) p])%list.
    split; [now apply answered_snoc|]. split; [|split; [|split]].
    + apply self_at_store. apply (next_key_fresh ps); auto.
      now apply (answered_phases _ (length (requests w0)) self0 _ reqs).
    + now rewrite last_length.
    + unfold world_done, world_sent, with_stdout, append_item. cbn [fst requests].
      rewrite Hreq. now rewrite <- app_assoc.
    + unfold world_done, world_sent, with_stdout, append_item. cbn [fst stdout].
      rewrite Hso, log_lines_snoc. unfold phase_lines, append_item. cbn [fst snd Nat.add].
      now rewrite <- !app_assoc.
  - destruct IH as (hist & reqs & Ha & Hs & Hlen & Hreq & Hso).
    cbn [fst snd] in *. subst self k.
    exists hist, reqs. split; [exact Ha|]. split; [reflexivity|].
    exists p. split; [exact Hp|].
    unfold world_sent. cbn [stdout]. rewrite Hso. now rewrite <- app_assoc.
  - destruct IH as (hist & reqs & Ha & Hs & Hrest).
    exists hist, reqs. auto.
Qed.

(** X13.  The loop of [run] over a table scenario prints, for each phase
    it completes and in order, the banner [PHASE i: NAME], the line
    [<agent> is working...], the output header and the answer just
    stored, and nothing else; when a call fails the banner of that phase
    is the last thing it prints. *)
Theorem loop_prints_answers sid sc tp w w' self' r :
  scenario_lookup sid SCENARIOS = Some sc ->
  run_phases (phases sc) (w, new_workflow sid sc tp) = ((w', self'), r) ->
  exists hist : list (phase * string),
    map fst hist = firstn (length hist) (phases sc) /\
    outputs self' = map (fun po => (phase_key (name (fst po)), snd po)) hist /\
    match r with
    | Normal _ =>
        length hist = length (phases sc) /\
        stdout w' = (stdout w ++ log_lines 1 hist)%list
    | Raised e =>
        exists p,
          nth_error (phases sc) (length hist) = Some p /\
          stdout w'
          = (stdout w ++ log_lines 1 hist ++ banner (S (length hist)) p)%list
    | SystemExit _ => False
    end.
Proof.
  intros Hl Hrun.
  pose proof (run_phases_steps (phases sc) (w, new_workflow sid sc tp)
                               (length (phases sc)) (le_n _)) as Hs.
  rewrite firstn_all, Hrun in Hs. cbn [fst snd] in Hs.
  apply loop_step_stdout in Hs; [|reflexivity | now apply (table_distinct_keys sid)].
  destruct Hs as (hist & reqs & Ha & Hself & Hr). cbn [fst snd] in *.
  exists hist. split; [now apply (answered_phases _ _ _ _ _ Ha)|].
  split; [now subst self'|].
  destruct r as [[]|e|c]; [|exact Hr|exact Hr].
  destruct Hr as (Hlen & _ & Hso). auto.
Qed.

End Program.

(* ================================================================== *)
(** ** The theorems at work on sample runs *)

(** A run of the marketing scenario in which every call is answered. *)
Notation "'answered_run'" :=
  (run sample_config answering_client sample_clock
       (world0 [], new_workflow sample_config "marketing" marketing "Smart Home Assistant")).

(** The same scenario with the second call failing. *)
Notation "'failed_run'" :=
  (run sample_config (failing_client 1) sample_clock
       (world0 [], new_workflow sample_config "marketing" marketing "")).

(** The same scenario without a topic, the client answering with a line
    of the shape of the topic line. *)
Notation "'echoed_run'" :=
  (run sample_config echoing_client sample_clock
       (world0 [], new_workflow sample_config "marketing" marketing "")).

(** The marketing run with the topic [Smart Home Assistant]: the first
    message is the topic line, an empty line and the prompt; the second
    adds the block of the first phase's answer; at the end the mapping has
    the four keys of the scenario. *)
Example marketing_end_to_end :
  user_content (nth 0 (requests (fst (fst answered_run))) no_request)
  = "Topic/Product: Smart Home Assistant" ++ NL ++ NL
    ++ prompt (nth 0 (phases marketing) no_phase) /\
  user_content (nth 1 (requests (fst (fst answered_run))) no_request)
  = "Topic/Product: Smart Home Assistant" ++ NL ++ NL
    ++ NL ++ NL ++ "Previous Phase Results:" ++ NL
    ++ NL ++ "Market Analysis:" ++ NL ++ "answer 0" ++ NL
    ++ NL ++ prompt (nth 1 (phases marketing) no_phase) /\
  PyDict.keys (outputs (snd (fst answered_run)))
  = ["market_analysis"; "strategy_development"; "tactical_planning"; "success_metrics"] /\
  snd answered_run = Normal tt.
Proof. vm_compute. repeat split. Qed.

Lemma prior_outputs_in_message_witness :
  exists (hist : list (phase * string)) (p : phase) (pre : string),
    map fst hist = firstn (2 - 1) (phases marketing) /\
    nth_error (phases marketing) (2 - 1) = Some p /\
    Forall (fun po => PyDict.get (phase_key (name (fst po)))
                                 (outputs (snd (fst answered_run))) = Some (snd po))
           hist /\
    user_content (nth 1 (requests (fst (fst answered_run))) no_request) =
      pre ++ flat (map (fun po => NL ++ name (fst po) ++ ":" ++ NL ++ snd po ++ NL) hist)
          ++ NL ++ prompt p.
Proof.
  apply (prior_outputs_in_message sample_config answering_client sample_clock
           "marketing" marketing "Smart Home Assistant" (world0 [])
           (fst (fst answered_run)) (snd (fst answered_run)) (snd answered_run)
           2 (nth 1 (requests (fst (fst answered_run))) no_request)).
  - reflexivity.
  - vm_compute. reflexivity.
  - lia.
  - vm_compute. reflexivity.
Defined.

Lemma message_exact_layout_witness :
  exists (hist : list (phase * string)) (p : phase),
    map fst hist = firstn (3 - 1) (phases marketing) /\
    nth_error (phases marketing) (3 - 1) = Some p /\
    Forall (fun po => PyDict.get (phase_key (name (fst po)))
                                 (outputs (snd (fst answered_run))) = Some (snd po))
           hist /\
    user_content (nth 2 (requests (fst (fst answered_run))) no_request) =
      (if truthy "Smart Home Assistant"
       then "Topic/Product: " ++ "Smart Home Assistant" ++ NL ++ NL else "")
      ++ (NL ++ NL ++ "Previous Phase Results:" ++ NL
          ++ flat (map (fun po => NL ++ name (fst po) ++ ":" ++ NL ++ snd po ++ NL) hist))
      ++ NL ++ prompt p.
Proof.
  apply (message_exact_layout sample_config answering_client sample_clock
           "marketing" marketing "Smart Home Assistant" (world0 [])
           (fst (fst answered_run)) (snd (fst answered_run)) (snd answered_run)
           3 (nth 2 (requests (fst (fst answered_run))) no_request)).
  - reflexivity.
  - vm_compute. reflexivity.
  - lia.
  - vm_compute. reflexivity.
Defined.

Lemma loop_invariant_witness :
  outputs (new_workflow sample_config "marketing" marketing "Smart Home Assistant") = [] /\
  PyDict.keys
    (outputs (snd (fst (run_phases sample_config answering_client (firstn 1 (phases marketing))
                          (world0 [], new_workflow sample_config "marketing" marketing
                                                   "Smart Home Assistant")))))
  = map (fun q => phase_key (name q)) (firstn 1 (phases marketing)) /\
  PyDict.get (phase_key (name (nth 1 (phases marketing) no_phase)))
    (outputs (snd (fst (run_phases sample_config answering_client (firstn 1 (phases marketing))
                          (world0 [], new_workflow sample_config "marketing" marketing
                                                   "Smart Home Assistant")))))
  = None.
Proof.
  pose proof
    (loop_invariant sample_config answering_client
       "marketing" marketing "Smart Home Assistant" (world0 []) 1
       (nth 1 (phases marketing) no_phase)
       (fst (fst (run_phases sample_config answering_client (firstn 1 (phases marketing))
                    (world0 [], new_workflow sample_config "marketing" marketing
                                             "Smart Home Assistant"))))
       (snd (fst (run_phases sample_config answering_client (firstn 1 (phases marketing))
                    (world0 [], new_workflow sample_config "marketing" marketing
                                             "Smart Home Assistant"))))) as H.
  destruct H as (H1 & H2 & H3 & _).
  - reflexivity.
  - reflexivity.
  - vm_compute. reflexivity.
  - auto.
Defined.

Lemma run_fills_outputs_witness :
  exists w' self',
    answered_run = ((w', self'), Normal tt) /\
    length (outputs self') = length (phases marketing) /\
    PyDict.keys (outputs self') = map (fun p => phase_key (name p)) (phases marketing) /\
    NoDup (PyDict.keys (outputs self')).
Proof.
  destruct (run_fills_outputs sample_config answering_client sample_clock
              "marketing" marketing "Smart Home Assistant" (world0 []))
    as (w' & self' & H1 & H2 & H3 & H4 & _).
  - reflexivity.
  - intros n req. exists ("answer " ++ str_nat n). reflexivity.
  - exists w', self'. auto.
Defined.

Lemma failure_stops_run_witness :
  snd failed_run = Raised (ClientError "Connection error.") /\
  length (requests (fst (fst failed_run))) = length (requests (world0 [])) + 2 /\
  PyDict.keys (outputs (snd (fst failed_run)))
  = map (fun q => phase_key (name q)) (firstn 1 (phases marketing)) /\
  (forall j q, 1 <= j -> nth_error (phases marketing) j = Some q ->
     PyDict.get (phase_key (name q)) (outputs (snd (fst failed_run))) = None) /\
  (forall j q, j < 1 -> nth_error (phases marketing) j = Some q ->
     exists reqj text,
       nth_error (requests (fst (fst failed_run))) (length (requests (world0 [])) + j)
       = Some reqj /\
       failing_client 1 (length (requests (world0 [])) + j) reqj = inr text /\
       PyDict.get (phase_key (name q)) (outputs (snd (fst failed_run))) = Some text).
Proof.
  apply (failure_stops_run sample_config (failing_client 1) sample_clock
           "marketing" marketing "" (world0 [])
           (fst (fst failed_run)) (snd (fst failed_run)) (snd failed_run)
           1 (nth 1 (requests (fst (fst failed_run))) no_request)
           (ClientError "Connection error.")).
  - reflexivity.
  - vm_compute. reflexivity.
  - vm_compute. reflexivity.
  - reflexivity.
Defined.

Lemma phase_key_properties_witness :
  phase_key "Market Analysis" = "market_analysis" /\
  phase_key (phase_key "Market Analysis") = phase_key "Market Analysis" /\
  phase_key (name (nth 0 (phases marketing) no_phase))
  <> phase_key (name (nth 3 (phases marketing) no_phase)).
Proof.
  destruct (phase_key_properties sample_config answering_client)
    as (_ & _ & Hidem & Hdistinct & _).
  split; [reflexivity|]. split; [apply Hidem|].
  apply (Hdistinct "marketing" marketing).
  - reflexivity.
  - vm_compute. tauto.
  - vm_compute. tauto.
  - vm_compute. discriminate.
Defined.

(** With an empty topic the second message of this run holds a line
    [Topic/Product: ...]: the answer stored for the first phase. *)
Lemma topic_text_without_topic :
  topic (new_workflow sample_config "marketing" marketing "") = "" /\
  PyDict.get "market_analysis" (outputs (snd (fst echoed_run)))
  = Some "Topic/Product: Smart Home Assistant" /\
  occurs "Topic/Product: "
         (user_content (nth 1 (requests (fst (fst echoed_run))) no_request)) = true /\
  occurs (NL ++ "Topic/Product: Smart Home Assistant" ++ NL)
         (user_content (nth 1 (requests (fst (fst echoed_run))) no_request)) = true.
Proof. vm_compute. repeat split. Qed.

Lemma topic_line_of_message_witness :
  exists (hist : list (phase * string)) (p : phase),
    map fst hist = firstn 1 (phases marketing) /\
    nth_error (phases marketing) 1 = Some p /\
    Forall (fun po => PyDict.get (phase_key (name (fst po)))
                                 (outputs (snd (fst answered_run))) = Some (snd po))
           hist /\
    user_content (nth 1 (requests (fst (fst answered_run))) no_request)
    = "Topic/Product: " ++ "Smart Home Assistant" ++ NL ++ NL ++ message_layout "" hist p.
Proof.
  destruct (topic_line_of_message sample_config answering_client sample_clock
              "marketing" marketing "Smart Home Assistant" (world0 [])
              (fst (fst answered_run)) (snd (fst answered_run)) (snd answered_run)
              1 (nth 1 (requests (fst (fst answered_run))) no_request))
    as (hist & p & H1 & H2 & H3 & H4 & _).
  - reflexivity.
  - vm_compute. reflexivity.
  - vm_compute. reflexivity.
  - exists hist, p. repeat split; auto. apply H4. discriminate.
Defined.

(** The first call fails and the process leaves with status 0; nothing
    was stored and no file was written. *)
Lemma failed_run_exits_with_status_0 :
  failing_client 0 0
    (nth 0 (requests (fst (program sample_config (failing_client 0) sample_clock true
                                   (sample_argv "Smart Home Assistant") (world0 []))))
         no_request)
  = inl (ClientError "Connection error.") /\
  length (requests (fst (program sample_config (failing_client 0) sample_clock true
                                 (sample_argv "Smart Home Assistant") (world0 [])))) = 1 /\
  files (fst (program sample_config (failing_client 0) sample_clock true
                      (sample_argv "Smart Home Assistant") (world0 []))) = [] /\
  snd (program sample_config (failing_client 0) sample_clock true
               (sample_argv "Smart Home Assistant") (world0 [])) = 0%Z.
Proof. vm_compute. repeat split. Qed.

(** The call for the second phase, Strategy Development, fails.  The
    exception that reaches [main] is the client's own, and no line the
    handler prints names the phase or its number. *)
Lemma surfaced_error_names_no_phase :
  snd failed_run = Raised (ClientError "Connection error.") /\
  str_exn (ClientError "Connection error.") = "Connection error." /\
  stderr (fst (main_try sample_config (failing_client 1) sample_clock
                        "marketing" "" (world0 [])))
  = [ClientError "Connection error."] /\
  forallb (fun line => negb (occurs "Strategy Development" line)
                       && negb (occurs "STRATEGY DEVELOPMENT" line)
                       && negb (occurs "PHASE" line)
                       && negb (occurs "hase 2" line))
          (handler_lines (ClientError "Connection error.")) = true.
Proof. vm_compute. repeat split. Qed.

Lemma failure_reaches_main_witness :
  snd failed_run = Raised (ClientError "Connection error.") /\
  (exists p pre,
      nth_error (phases marketing) 1 = Some p /\
      nth 1 (requests (fst (fst failed_run))) no_request
      = phase_request sample_config (snd (fst failed_run)) 2 p /\
      stdout (fst (fst failed_run)) = (pre ++ banner 2 p)%list) /\
  stdout (fst (main_try sample_config (failing_client 1) sample_clock
                        "marketing" "" (world0 [])))
  = (stdout (fst (fst failed_run)) ++ handler_lines (ClientError "Connection error."))%list /\
  stderr (fst (main_try sample_config (failing_client 1) sample_clock
                        "marketing" "" (world0 [])))
  = (stderr (fst (fst failed_run)) ++ [ClientError "Connection error."])%list /\
  hd "" (handler_lines (ClientError "Connection error."))
  = NL ++ "❌ Error during workflow execution: "
       ++ str_exn (ClientError "Connection error.") ++ NL.
Proof.
  apply (failure_reaches_main sample_config (failing_client 1) sample_clock
           "marketing" marketing "" (world0 [])
           (fst (fst failed_run)) (snd (fst failed_run)) (snd failed_run)
           1 (nth 1 (requests (fst (fst failed_run))) no_request)
           (ClientError "Connection error.")).
  - reflexivity.
  - reflexivity.
  - vm_compute. reflexivity.
  - vm_compute. reflexivity.
  - reflexivity.
Defined.

(** Two runs of the marketing scenario, one after the other, the clock
    standing in the same second: both write
    [Exercise_4_marketing_20251103_143015.txt], and after the second run
    the file holds the second transcript only. *)
Lemma same_second_overwrites :
  microsecond (sample_clock 1) <> microsecond (sample_clock 5) /\
  files (fst (program sample_config answering_client sample_clock true
                      (sample_argv "first") (world0 [])))
  = [("Exercise_4_marketing_20251103_143015.txt",
      match PyDict.get "Exercise_4_marketing_20251103_143015.txt"
              (files (fst (program sample_config answering_client sample_clock true
                                   (sample_argv "first") (world0 []))))
      with Some c => c | None => "" end)] /\
  PyDict.keys
    (files (fst (program sample_config answering_client sample_clock true
                   (sample_argv "second")
                   (fst (program sample_config answering_client sample_clock true
                                 (sample_argv "first") (world0 []))))))
  = ["Exercise_4_marketing_20251103_143015.txt"] /\
  match PyDict.get "Exercise_4_marketing_20251103_143015.txt"
          (files (fst (program sample_config answering_client sample_clock true
                         (sample_argv "first") (world0 [])))),
        PyDict.get "Exercise_4_marketing_20251103_143015.txt"
          (files (fst (program sample_config answering_client sample_clock true
                         (sample_argv "second")
                         (fst (program sample_config answering_client sample_clock true
                                       (sample_argv "first") (world0 []))))))
  with
  | Some c1, Some c2 =>
      occurs "Topic: first" c1 = true /\ occurs "Topic: first" c2 = false /\
      occurs "Topic: second" c2 = true
  | _, _ => False
  end.
Proof. vm_compute. repeat split. discriminate. Qed.

Lemma result_file_name_witness :
  (PyDict.get (output_file_name "marketing" (sample_clock (S (clock_reads (world0 [])))))
              (files (fst (fst answered_run)))
   = Some (transcript (snd (fst answered_run))
                      (sample_clock (S (S (clock_reads (world0 []))))))) /\
  (output_file_name "marketing" (sample_clock 1) = output_file_name "marketing" (sample_clock 5)
   <-> "marketing" = "marketing" /\ same_second (sample_clock 1) (sample_clock 5)).
Proof.
  destruct (result_file_name sample_config answering_client sample_clock)
    as (Hwritten & _ & Hname).
  split.
  - destruct (Hwritten "marketing" marketing "Smart Home Assistant" (world0 [])
                       (fst (fst answered_run)) (snd (fst answered_run)))
      as (_ & Hget & _).
    + reflexivity.
    + vm_compute. reflexivity.
    + exact Hget.
  - apply Hname; unfold valid_datetime, sample_clock;
      cbn [year month day hour minute second microsecond];
      repeat split;
      first [apply Nat.leb_le | apply Nat.ltb_lt]; vm_compute; reflexivity.
Defined.

(* ------------------------------------------------------------------ *)
(** *** The further properties on the sample runs *)

Lemma request_shape_witness :
  length (requests (fst (fst answered_run)))
  <= length (requests (world0 [])) + length (phases marketing) /\
  exists p,
    nth_error (phases marketing) 2 = Some p /\
    req_model (nth 2 (requests (fst (fst answered_run))) no_request)
    = OPENAI_MODEL sample_config /\
    req_temperature (nth 2 (requests (fst (fst answered_run))) no_request)
    = AGENT_TEMPERATURE sample_config /\
    req_max_tokens (nth 2 (requests (fst (fst answered_run))) no_request)
    = AGENT_MAX_TOKENS sample_config /\
    map role (req_messages (nth 2 (requests (fst (fst answered_run))) no_request))
    = ["system"; "user"] /\
    map content (req_messages (nth 2 (requests (fst (fst answered_run))) no_request))
    = ["You are " ++ agent p ++ ". " ++ prompt p;
       user_content (nth 2 (requests (fst (fst answered_run))) no_request)].
Proof.
  apply (request_shape sample_config answering_client sample_clock
           "marketing" marketing "Smart Home Assistant" (world0 [])
           (fst (fst answered_run)) (snd (fst answered_run)) (snd answered_run)
           2 (nth 2 (requests (fst (fst answered_run))) no_request)).
  - reflexivity.
  - vm_compute. reflexivity.
  - vm_compute. reflexivity.
Defined.

Lemma first_message_witness :
  exists req p,
    nth_error (requests (fst (fst failed_run))) (length (requests (world0 []))) = Some req /\
    nth_error (phases marketing) 0 = Some p /\
    user_content req
    = (if truthy "" then "Topic/Product: " ++ "" ++ NL ++ NL else "") ++ prompt p.
Proof.
  apply (first_message sample_config (failing_client 1) sample_clock
           "marketing" marketing "" (world0 [])
           (fst (fst failed_run)) (snd (fst failed_run)) (snd failed_run)).
  - reflexivity.
  - vm_compute. reflexivity.
Defined.

Lemma store_overwrites_witness :
  snd (execute_phase sample_config answering_client 1 (nth 0 (phases marketing) no_phase)
         (world0 [],
          set_outputs [("market_analysis", "old"); ("success_metrics", "kept")]
                      (new_workflow sample_config "marketing" marketing "")))
  = Normal tt /\
  PyDict.keys
    (outputs
       (snd (fst (execute_phase sample_config answering_client 1
                    (nth 0 (phases marketing) no_phase)
                    (world0 [],
                     set_outputs [("market_analysis", "old"); ("success_metrics", "kept")]
                                 (new_workflow sample_config "marketing" marketing ""))))))
  = ["market_analysis"; "success_metrics"] /\
  PyDict.get "market_analysis"
    (outputs
       (snd (fst (execute_phase sample_config answering_client 1
                    (nth 0 (phases marketing) no_phase)
                    (world0 [],
                     set_outputs [("market_analysis", "old"); ("success_metrics", "kept")]
                                 (new_workflow sample_config "marketing" marketing ""))))))
  = Some "answer 0".
Proof.
  destruct (store_overwrites sample_config answering_client 1
              (nth 0 (phases marketing) no_phase) (world0 [])
              (set_outputs [("market_analysis", "old"); ("success_metrics", "kept")]
                           (new_workflow sample_config "marketing" marketing ""))
              "old" "answer 0")
    as (H1 & H2 & H3 & _).
  - reflexivity.
  - reflexivity.
  - split; [exact H1|]. split; [exact H2 | exact H3].
Defined.

Lemma interactive_selection_witness :
  snd (interactive (world0 ["  Marketing "; " Smart Home Assistant "]))
  = Normal ("marketing", strip " Smart Home Assistant ") /\
  stdin (fst (interactive (world0 ["  Marketing "; " Smart Home Assistant "]))) = [].
Proof.
  destruct (interactive_selection (world0 ["  Marketing "; " Smart Home Assistant "])
              "  Marketing " [" Smart Home Assistant "])
    as (_ & Hsel & _).
  - reflexivity.
  - apply (Hsel "2" "marketing" " Smart Home Assistant " []).
    + unfold menu_entries. cbn [In]. tauto.
    + right. reflexivity.
    + reflexivity.
Defined.

Lemma interactive_end_of_input_witness :
  snd (program sample_config answering_client sample_clock true
               ["autogen_custom_problems.py"] (world0 ["3"])) = 1%Z /\
  requests (fst (program sample_config answering_client sample_clock true
                         ["autogen_custom_problems.py"] (world0 ["3"])))
  = requests (world0 ["3"]) /\
  files (fst (program sample_config answering_client sample_clock true
                      ["autogen_custom_problems.py"] (world0 ["3"])))
  = files (world0 ["3"]) /\
  stderr (fst (program sample_config answering_client sample_clock true
                       ["autogen_custom_problems.py"] (world0 ["3"])))
  = append_item (stderr (world0 ["3"])) EOFError.
Proof.
  apply (interactive_end_of_input sample_config answering_client sample_clock).
  right. exists "3", "3", "research". split; [reflexivity|]. split.
  - unfold menu_entries. cbn [In]. tauto.
  - left. reflexivity.
Defined.

Lemma transcript_written_witness :
  files (fst (fst answered_run))
  = PyDict.set (output_file_name "marketing" (sample_clock (S (clock_reads (world0 [])))))
               (rep "=" 80 ++ NL
                ++ "AUTOGEN " ++ upper (scenario_name marketing) ++ " - FULL RESULTS" ++ NL
                ++ rep "=" 80 ++ NL
                ++ "Generated: "
                ++ strftime_long (sample_clock (S (S (clock_reads (world0 []))))) ++ NL
                ++ "Model: " ++ OPENAI_MODEL sample_config ++ NL
                ++ (if truthy "Smart Home Assistant"
                    then "Topic: " ++ "Smart Home Assistant" ++ NL else "")
                ++ NL
                ++ sections (outputs (snd (fst answered_run))) 1 (phases marketing))
               (files (world0 [])).
Proof.
  apply (transcript_written sample_config answering_client sample_clock
           "marketing" marketing "Smart Home Assistant" (world0 [])
           (fst (fst answered_run)) (snd (fst answered_run))).
  - reflexivity.
  - vm_compute. reflexivity.
Defined.

Lemma summary_missing_key_witness :
  snd (print_summary sample_clock
         (world0 [],
          set_outputs [("market_analysis", "text")]
                      (new_workflow sample_config "marketing" marketing "")))
  = Raised (KeyError "strategy_development") /\
  files (fst (fst (print_summary sample_clock
                     (world0 [],
                      set_outputs [("market_analysis", "text")]
                                  (new_workflow sample_config "marketing" marketing "")))))
  = files (world0 []) /\
  clock_reads
    (fst (fst (print_summary sample_clock
                 (world0 [],
                  set_outputs [("market_analysis", "text")]
                              (new_workflow sample_config "marketing" marketing "")))))
  = clock_reads (world0 []).
Proof.
  apply (summary_missing_key sample_clock
           (set_outputs [("market_analysis", "text")]
                        (new_workflow sample_config "marketing" marketing ""))
           (world0 [])
           (firstn 1 (phases marketing))
           (nth 1 (phases marketing) no_phase)
           (skipn 2 (phases marketing))).
  - reflexivity.
  - intros q Hq. cbn in Hq. destruct Hq as [<-|[]]. discriminate.
  - reflexivity.
Defined.

Lemma stored_is_answer_witness :
  exists p,
    nth_error (phases marketing) 1 = Some p /\
    PyDict.get (phase_key (name p)) (outputs (snd (fst answered_run))) = Some "answer 1".
Proof.
  apply (stored_is_answer sample_config answering_client sample_clock
           "marketing" marketing "Smart Home Assistant" (world0 [])
           (fst (fst answered_run)) (snd (fst answered_run)) (snd answered_run)
           1 (nth 1 (requests (fst (fst answered_run))) no_request) "answer 1").
  - reflexivity.
  - vm_compute. reflexivity.
  - vm_compute. reflexivity.
  - reflexivity.
Defined.

Lemma loop_prints_answers_witness :
  exists hist : list (phase * string),
    map fst hist = firstn (length hist) (phases marketing) /\
    outputs (snd (fst (run_phases sample_config (failing_client 1) (phases marketing)
                         (world0 [], new_workflow sample_config "marketing" marketing ""))))
    = map (fun po => (phase_key (name (fst po)), snd po)) hist /\
    exists p,
      nth_error (phases marketing) (length hist) = Some p /\
      stdout (fst (fst (run_phases sample_config (failing_client 1) (phases marketing)
                          (world0 [], new_workflow sample_config "marketing" marketing ""))))
      = (stdout (world0 []) ++ log_lines 1 hist ++ banner (S (length hist)) p)%list.
Proof.
  apply (loop_prints_answers sample_config (failing_client 1)
           "marketing" marketing "" (world0 [])
           (fst (fst (run_phases sample_config (failing_client 1) (phases marketing)
                        (world0 [], new_workflow sample_config "marketing" marketing ""))))
           (snd (fst (run_phases sample_config (failing_client 1) (phases marketing)
                        (world0 [], new_workflow sample_config "marketing" marketing ""))))
           (Raised (ClientError "Connection error."))).
  - reflexivity.
  - vm_compute. reflexivity.
Defined.
